(** * Homepage builder service: generation pipeline and screenshot service

  A shallow embedding of [src/generator.js] (class [HomepageGenerator]) and
  of the screenshot service (class [ScreenshotService]), together with the
  properties of the two components that the specification states. *)

From Stdlib Require Import String Ascii List Bool Arith NArith Lia DecimalString.
Import ListNotations.
Open Scope string_scope.

(** ** JavaScript primitives used by the two classes *)

Module Js.

(** The double quote and the line feed, as one-character strings. *)
Definition dq : string := String (ascii_of_nat 34) EmptyString.
Definition nl : string := String (ascii_of_nat 10) EmptyString.

(** A value that is a string, [null] or [undefined]: what the request
    fields and the optional parameters of the generator hold. *)
Inductive JsStr : Type :=
| Undefined
| Null
| Str (s : string).

(** Truthiness ([if (v)], [v ? a : b], [v || d]). *)
Definition truthy (v : JsStr) : bool :=
  match v with
  | Str s => negb (s =? "")
  | _ => false
  end.

(** Interpolation [`${v}`] in a template literal. *)
Definition tpl (v : JsStr) : string :=
  match v with
  | Undefined => "undefined"
  | Null => "null"
  | Str s => s
  end.

(** [v || ''] *)
Definition orEmpty (v : JsStr) : string :=
  if truthy v then tpl v else "".

(** [v === 'lit'] *)
Definition strictEq (v : JsStr) (lit : string) : bool :=
  match v with
  | Str s => s =? lit
  | _ => false
  end.

(** [`${n}`] for a non-negative integer. *)
Definition num (n : nat) : string := NilEmpty.string_of_uint (Nat.to_uint n).

(** [arr.join(sep)] on an array of strings. *)
Fixpoint join (sep : string) (l : list string) : string :=
  match l with
  | [] => ""
  | [x] => x
  | x :: rest => x ++ sep ++ join sep rest
  end.

(** [arr.slice(0, n)] *)
Definition slice0 {A : Type} (n : nat) (l : list A) : list A := firstn n l.

(** [arr.includes('lit')] on an array of field values. *)
Definition arrIncludes (l : list JsStr) (lit : string) : bool :=
  existsb (fun v => strictEq v lit) l.

(** [[...new Set(arr)]]: a Set keeps the insertion order of the first
    occurrence of each element. *)
Definition setAdd (acc : list string) (x : string) : list string :=
  if existsb (String.eqb x) acc then acc else acc ++ [x].

Definition setOf (l : list string) : list string := fold_left setAdd l [].

(** [s.startsWith(p)] *)
Fixpoint startsWith (p s : string) : bool :=
  match p, s with
  | EmptyString, _ => true
  | String a p', String b s' => Ascii.eqb a b && startsWith p' s'
  | String _ _, EmptyString => false
  end.

(** [s.includes(needle)] *)
Fixpoint includes (s needle : string) : bool :=
  startsWith needle s ||
  match s with
  | EmptyString => false
  | String _ s' => includes s' needle
  end.

Fixpoint drop (n : nat) (s : string) : string :=
  match n, s with
  | S n', String _ s' => drop n' s'
  | _, _ => s
  end.

(** The first occurrence of [needle] in [s], as the text before it and the
    text after it ([None] when [s.indexOf(needle)] is -1). *)
Fixpoint splitFirst (needle s : string) : option (string * string) :=
  if startsWith needle s then Some ("", drop (String.length needle) s)
  else match s with
       | EmptyString => None
       | String c s' =>
           match splitFirst needle s' with
           | Some (pre, post) => Some (String c pre, post)
           | None => None
           end
       end.

(** GetSubstitution of ECMA-262 for a string pattern (no capture groups):
    in the replacement text [$$] stands for a dollar sign, [$&] for the
    matched text, [$`] for the text before the match and [$'] for the
    text after it; any other dollar sign is literal. *)
Fixpoint getSubstitution (matched preceding following template : string)
  : string :=
  match template with
  | EmptyString => ""
  | String a t =>
      if Ascii.eqb a "$" then
        match t with
        | EmptyString => String a ""
        | String c rest =>
            if Ascii.eqb c "$" then
              "$" ++ getSubstitution matched preceding following rest
            else if Ascii.eqb c "&" then
              matched ++ getSubstitution matched preceding following rest
            else if Ascii.eqb c "`" then
              preceding ++ getSubstitution matched preceding following rest
            else if Ascii.eqb c "'" then
              following ++ getSubstitution matched preceding following rest
            else String a (getSubstitution matched preceding following t)
        end
      else String a (getSubstitution matched preceding following t)
  end.

Definition isPatternChar (c : ascii) : bool :=
  Ascii.eqb c "$" || Ascii.eqb c "&" || Ascii.eqb c "`" || Ascii.eqb c "'".

(** The text holds one of the four replacement patterns. *)
Fixpoint hasPattern (template : string) : bool :=
  match template with
  | EmptyString => false
  | String a t =>
      (Ascii.eqb a "$"
       && match t with
          | String c _ => isPatternChar c
          | EmptyString => false
          end)
      || hasPattern t
  end.

(** [s.replace(pattern, replacement)] with a string pattern: only the first
    occurrence is replaced, and the replacement text is expanded. *)
Definition replace (s pattern replacement : string) : string :=
  match splitFirst pattern s with
  | None => s
  | Some (pre, post) =>
      pre ++ getSubstitution pattern pre post replacement ++ post
  end.

(** A string is held as the bytes of its UTF-8 encoding, the form in which
    the source file holds its literals. [trim] removes from both ends the
    WhiteSpace and LineTerminator code points of ECMA-262: U+0009 to U+000D
    and U+0020, which take one byte; U+00A0, which takes two; and U+1680,
    U+2000 to U+200A, U+2028, U+2029, U+202F, U+205F, U+3000 and U+FEFF,
    which take three. *)
Definition isSpace (c : ascii) : bool :=
  let n := nat_of_ascii c in
  Nat.eqb n 32 || (Nat.leb 9 n && Nat.leb n 13).

(** U+00A0 is C2 A0. *)
Definition isSpace2 (a b : ascii) : bool :=
  Nat.eqb (nat_of_ascii a) 194 && Nat.eqb (nat_of_ascii b) 160.

(** U+1680 is E1 9A 80; U+2000 to U+200A are E2 80 80 to E2 80 8A; U+2028
    and U+2029 are E2 80 A8 and E2 80 A9; U+202F is E2 80 AF; U+205F is
    E2 81 9F; U+3000 is E3 80 80; U+FEFF is EF BB BF. *)
Definition isSpace3 (a b c : ascii) : bool :=
  let x := nat_of_ascii a in
  let y := nat_of_ascii b in
  let z := nat_of_ascii c in
  (Nat.eqb x 225 && Nat.eqb y 154 && Nat.eqb z 128)
  || (Nat.eqb x 226 && Nat.eqb y 128
      && ((Nat.leb 128 z && Nat.leb z 138)
          || (Nat.leb 168 z && Nat.leb z 169)
          || Nat.eqb z 175))
  || (Nat.eqb x 226 && Nat.eqb y 129 && Nat.eqb z 159)
  || (Nat.eqb x 227 && Nat.eqb y 128 && Nat.eqb z 128)
  || (Nat.eqb x 239 && Nat.eqb y 187 && Nat.eqb z 191).

(** The text that follows the white-space character [s] starts with, if it
    starts with one. *)
Definition afterSpace (s : string) : option string :=
  match s with
  | String a r1 =>
      if isSpace a then Some r1
      else match r1 with
           | String b r2 =>
               if isSpace2 a b then Some r2
               else match r2 with
                    | String c r3 => if isSpace3 a b c then Some r3 else None
                    | EmptyString => None
                    end
           | EmptyString => None
           end
  | EmptyString => None
  end.

Fixpoint trimStart (s : string) : string :=
  match s with
  | String a r1 =>
      if isSpace a then trimStart r1
      else match r1 with
           | String b r2 =>
               if isSpace2 a b then trimStart r2
               else match r2 with
                    | String c r3 =>
                        if isSpace3 a b c then trimStart r3 else s
                    | EmptyString => s
                    end
           | EmptyString => s
           end
  | EmptyString => ""
  end.

(** The text is made of white space only. *)
Definition onlySpace (s : string) : bool :=
  match trimStart s with
  | EmptyString => true
  | String _ _ => false
  end.

(** The text is cut where its trailing white space starts. *)
Fixpoint trimEnd (s : string) : string :=
  match s with
  | EmptyString => ""
  | String c s' => if onlySpace s then "" else String c (trimEnd s')
  end.

(** [s.trim()] *)
Definition trim (s : string) : string := trimEnd (trimStart s).

(** The property names every object literal inherits from
    [Object.prototype]. *)
Definition objectPrototypeKeys : list string :=
  [ "constructor"; "__defineGetter__"; "__defineSetter__"; "hasOwnProperty";
    "__lookupGetter__"; "__lookupSetter__"; "isPrototypeOf";
    "propertyIsEnumerable"; "toString"; "valueOf"; "__proto__";
    "toLocaleString" ].

(** The value read from a property of an object literal: an entry of the
    literal, or a built-in object inherited from the prototype. *)
Inductive Val (A : Type) : Type :=
| Own (a : A)
| Builtin (name : string).
Arguments Own {A} a.
Arguments Builtin {A} name.

Fixpoint ownProperty {A : Type} (entries : list (string * A)) (key : string)
  : option A :=
  match entries with
  | [] => None
  | (k, a) :: rest => if k =? key then Some a else ownProperty rest key
  end.

(** [obj[key]]: own entries first, then the prototype; [None] is
    [undefined]. *)
Definition get {A : Type} (entries : list (string * A)) (key : string)
  : option (Val A) :=
  match ownProperty entries key with
  | Some a => Some (Own a)
  | None =>
      if existsb (String.eqb key) objectPrototypeKeys
      then Some (Builtin key) else None
  end.

(** [`${v}`] for a value read from a table of strings: the built-in
    functions print their native source, the prototype object prints as an
    object. *)
Definition tplVal (v : Val string) : string :=
  match v with
  | Own s => s
  | Builtin name =>
      if name =? "__proto__" then "[object Object]"
      else "function "
           ++ (if name =? "constructor" then "Object" else name)
           ++ "() { [native code] }"
  end.

End Js.

(** ** The homepage generator ([src/generator.js]) *)

Module Generator.
Import Js.

(** One recommendation of the analysis result; a field that the object does
    not carry reads as [Undefined]. *)
Record Recommendation : Type := mkRec {
  rec_type : JsStr;
  rec_title : JsStr;
  rec_description : JsStr
}.

(** [analysisResult.business_info]; [services] is [None] when the field is
    absent or [null]. *)
Record BusinessInfo : Type := mkBusinessInfo {
  name : JsStr;
  business_type : JsStr;
  industry : JsStr;
  description : JsStr;
  services : option (list string);
  location : JsStr;
  phone : JsStr
}.

Record AnalysisResult : Type := mkAnalysis {
  business_info : option BusinessInfo;
  recommendations : option (list Recommendation)
}.

Record Palette : Type := mkPalette {
  primary : string;
  secondary : string;
  accent : string
}.

(** A call either returns a value or throws an error with a message. *)
Inductive Result (A : Type) : Type :=
| Ok (a : A)
| Throw (message : string).
Arguments Ok {A} a.
Arguments Throw {A} message.

Definition bind {A B : Type} (r : Result A) (k : A -> Result B) : Result B :=
  match r with
  | Ok a => k a
  | Throw m => Throw m
  end.

#[local] Notation "x <- r ;; k" := (bind r (fun x => k))
  (at level 61, r at next level, right associativity).

(** [try { body } catch (error) { throw new Error(prefix + error.message) }] *)
Definition rethrowAs {A : Type} (prefix : string) (body : Result A) : Result A :=
  match body with
  | Ok a => Ok a
  | Throw m => Throw (prefix ++ m)
  end.

(** Reading a property of [businessInfo]: a [TypeError] when it is
    [undefined]. *)
Definition readProps (field : string) (businessInfo : option BusinessInfo)
  : Result BusinessInfo :=
  match businessInfo with
  | Some bi => Ok bi
  | None =>
      Throw ("Cannot read properties of undefined (reading '" ++ field ++ "')")
  end.

(** *** _getIndustryTemplate *)

Definition templates : list (string * string) :=
  [ ("home_services",
"
- Emphasize trust and reliability with reviews/testimonials
- Include service area coverage map
- Feature emergency contact prominently
- Add before/after photos or service galleries
- Include licensing/insurance information");
    ("healthcare",
"
- Emphasize professionalism and trust
- Include practitioner credentials and certifications
- Feature patient testimonials (anonymized)
- Add online appointment booking
- Include office hours and location prominently");
    ("food_and_beverage",
"
- Showcase menu highlights with appetizing descriptions
- Include high-quality food photography placeholders
- Feature customer reviews and ratings
- Add online ordering or reservation system
- Include location, hours, and delivery info");
    ("automotive",
"
- Emphasize expertise and certifications
- Include service guarantees and warranties
- Feature customer testimonials
- Add service appointment booking
- Include accepted insurance and payment methods");
    ("beauty_and_wellness",
"
- Showcase services with before/after examples
- Include practitioner credentials and specialties
- Feature client transformations and testimonials
- Add online booking system
- Include pricing and package information");
    ("professional_services",
"
- Emphasize expertise and credentials
- Include case studies or success stories
- Feature client testimonials
- Add consultation booking
- Include clear service descriptions and pricing");
    ("retail",
"
- Showcase product highlights with images
- Include customer reviews and ratings
- Feature special offers and promotions
- Add online shopping or catalog
- Include store location and hours");
    ("default",
"
- Focus on clear value proposition
- Include customer testimonials
- Feature key services prominently
- Add clear contact methods
- Include business credentials and trust signals") ].

(** [table[key] || table.default], for a table whose [default] entry is
    [dflt]: an [undefined] or empty-string value gives the default. *)
Definition getOrDefault {A : Type} (isTruthy : A -> bool)
  (table : list (string * A)) (dflt : A) (key : string) : Val A :=
  match get table key with
  | Some (Own a) => if isTruthy a then Own a else Own dflt
  | Some (Builtin b) => Builtin b
  | None => Own dflt
  end.

Definition templatesDefault : string :=
  match ownProperty templates "default" with
  | Some t => t
  | None => ""
  end.

(** [templates[industry] || templates.default]; the property key is the
    string form of [industry]. The second parameter is not used. *)
Definition _getIndustryTemplate (industry businessType : JsStr) : Val string :=
  getOrDefault (fun s => negb (s =? "")) templates templatesDefault
    (tpl industry).

(** *** _getBaseColors *)

Definition overridePalette : Palette :=
  mkPalette "#3B82F6" "#1E40AF" "#EF4444".

Definition industryColors : list (string * Palette) :=
  [ ("healthcare", mkPalette "#10B981" "#059669" "#3B82F6");
    ("food_and_beverage", mkPalette "#F59E0B" "#D97706" "#EF4444");
    ("home_services", mkPalette "#3B82F6" "#1E40AF" "#F59E0B");
    ("automotive", mkPalette "#DC2626" "#B91C1C" "#374151");
    ("beauty_and_wellness", mkPalette "#EC4899" "#DB2777" "#8B5CF6");
    ("professional_services", mkPalette "#1F2937" "#111827" "#3B82F6");
    ("default", mkPalette "#3B82F6" "#1E40AF" "#10B981") ].

Definition industryColorsDefault : Palette :=
  match ownProperty industryColors "default" with
  | Some p => p
  | None => mkPalette "" "" ""
  end.

Definition _getBaseColors (colorScheme industry : JsStr) : Val Palette :=
  if truthy colorScheme then Own overridePalette
  else getOrDefault (fun _ => true) industryColors industryColorsDefault
         (tpl industry).

(** *** _generateCustomCSS *)

(** [baseColors.primary] and its siblings; a built-in object has no such
    property and prints as [undefined]. *)
Definition colorOf (field : Palette -> string) (baseColors : Val Palette)
  : string :=
  match baseColors with
  | Own p => field p
  | Builtin _ => "undefined"
  end.

Definition _generateCustomCSS (businessInfo : option BusinessInfo)
  (stylePreference colorScheme : JsStr) : Result string :=
  bi <- readProps "industry" businessInfo ;;
  let baseColors := _getBaseColors colorScheme (industry bi) in
  Ok (trim (
"
/* Custom styles for " ++
  tpl (name bi) ++
  " */
:root {
    --primary-color: " ++
  colorOf primary baseColors ++
  ";
    --secondary-color: " ++
  colorOf secondary baseColors ++
  ";
    --accent-color: " ++
  colorOf accent baseColors ++
  ";
}

.custom-hero-bg {
    background: linear-gradient(135deg, var(--primary-color) 0%, var(--secondary-color) 100%);
}

.custom-card-hover {
    transition: transform 0.3s ease, box-shadow 0.3s ease;
}

.custom-card-hover:hover {
    transform: translateY(-4px);
    box-shadow: 0 10px 25px rgba(0, 0, 0, 0.15);
}

.custom-btn-primary {
    background-color: var(--accent-color);
    transition: all 0.3s ease;
}

.custom-btn-primary:hover {
    filter: brightness(1.1);
    transform: translateY(-1px);
}

@media (max-width: 768px) {
    .custom-hero-text {
        font-size: 2rem;
    }
}
")).

(** *** _generateBookingJS *)

Definition _generateBookingJS : string :=
  trim
"
// Simple booking functionality
function openBookingModal() {
    // In a real implementation, this would open a booking widget
    alert('Booking functionality would be integrated here. This could connect to Calendly, Acuity, or a custom booking system.');
}

// Add event listeners when DOM is loaded
document.addEventListener('DOMContentLoaded', function() {
    const bookingButtons = document.querySelectorAll('[data-booking-btn]');
    bookingButtons.forEach(button => {
        button.addEventListener('click', openBookingModal);
    });
});
".

(** *** _determineFeaturesIncluded *)

(** [if (cond) features.push(...items)] *)
Definition pushIf (cond : bool) (items features : list string) : list string :=
  if cond then features ++ items else features.

Definition _determineFeaturesIncluded (recommendations : list Recommendation)
  (includeBooking : bool) (stylePreference : JsStr) : list string :=
  let features := ["responsive_design"; "modern_layout"] in
  let features :=
    pushIf (strictEq stylePreference "modern")
      ["modern_typography"; "gradient_backgrounds"] features in
  let recTypes := map rec_type recommendations in
  let features :=
    pushIf (arrIncludes recTypes "mobile_optimization")
      ["mobile_optimized"] features in
  let features :=
    pushIf (arrIncludes recTypes "seo_optimization")
      ["seo_optimized"] features in
  let features :=
    pushIf (arrIncludes recTypes "conversion_optimization")
      ["conversion_optimized"] features in
  let features := pushIf includeBooking ["booking_integration"] features in
  features ++ ["call_to_action"; "contact_section"; "services_showcase"].

(** *** _generateImprovementDescription *)

(** The [switch (rec.type)] of the narrative. *)
Definition improvementType (rec : Recommendation) : string :=
  let t := rec_type rec in
  if strictEq t "design_improvement" then "modern design"
  else if strictEq t "mobile_optimization" then "mobile optimization"
  else if strictEq t "seo_optimization" then "SEO optimization"
  else if strictEq t "conversion_optimization" then "conversion optimization"
  else if strictEq t "performance_boost" then "performance improvements"
  else "website enhancement".

Definition _generateImprovementDescription
  (recommendations : list Recommendation) (featuresIncluded : list string)
  : string :=
  let numRecommendations := List.length recommendations in
  let numFeatures := List.length featuresIncluded in
  let description :=
    "Implemented " ++ num numRecommendations
    ++ " key improvements including " in
  let improvementTypes := map improvementType recommendations in
  let uniqueTypes := setOf improvementTypes in
  let description := description ++ join ", " (slice0 3 uniqueTypes) in
  let description :=
    if Nat.ltb 3 (List.length uniqueTypes)
    then description ++ ", and " ++ num (List.length uniqueTypes - 3)
         ++ " other improvements"
    else description in
  description ++ ". Features " ++ num numFeatures
  ++ " modern web components for enhanced user experience and business growth.".

(** *** _createHomepagePrompt *)

Definition colorSchemeText (colorScheme : JsStr) : string :=
  if truthy colorScheme then "Use this color scheme: " ++ tpl colorScheme
  else "".

Definition bookingText (includeBooking : bool) : string :=
  if includeBooking then
    "Include a prominent " ++ dq ++ "Book Appointment" ++ dq ++ " or " ++ dq
    ++ "Schedule Service" ++ dq ++ " button with data-booking-btn attribute."
  else "".

Definition recommendationLine (rec : Recommendation) : string :=
  "- " ++ tpl (rec_title rec) ++ ": " ++ tpl (rec_description rec).

Definition topRecommendations (recommendations : list Recommendation)
  : string :=
  join nl (map recommendationLine (slice0 3 recommendations)).

(** The text of the prompt, with its holes filled in. *)
Definition promptText (businessName businessType industry : JsStr)
  (description location phone : string) (services : list string)
  (stylePreference : JsStr) (colorSchemeText bookingText : string)
  (topRecommendations : string) (templateGuidance : Val string) : string :=
"
Create a modern, professional homepage for this business:

Business Information:
- Name: " ++
  tpl businessName ++
  "
- Type: " ++
  tpl businessType ++
  "
- Industry: " ++
  tpl industry ++
  "
- Description: " ++
  description ++
  "
- Location: " ++
  location ++
  "
- Phone: " ++
  phone ++
  "
- Services: " ++
  join ", " services ++
  "

Style Requirements:
- Style: " ++
  tpl stylePreference ++
  "
- " ++
  colorSchemeText ++
  "
- " ++
  bookingText ++
  "

Key Improvements to Implement:
" ++
  topRecommendations ++
  "

Industry-Specific Requirements:
" ++
  tplVal templateGuidance ++
  "

Requirements:
1. Create a complete HTML page with Tailwind CSS
2. Include these sections:
   - Header with navigation and contact info
   - Hero section with compelling headline and value proposition
   - Services/features section with icons or images
   - About/trust section with credibility indicators
   - Contact section with form and map placeholder
   - Footer with business details
3. Make it mobile-responsive with proper breakpoints
4. Use modern design principles and accessibility
5. Include clear call-to-action buttons throughout
6. Optimize for " ++
  tpl businessType ++
  " businesses
7. Include contact information: " ++
  phone ++
  "
8. Add proper semantic HTML structure
9. Include meta tags for SEO
10. Use appropriate color psychology for " ++
  tpl industry ++
  "

Generate only the complete HTML code with embedded Tailwind CSS classes. No explanations.
The code should be production-ready, visually appealing, and convert visitors to customers.
".

(** [websiteContent] is destructured by the source and never read; it is
    left out of the parameters. *)
Definition _createHomepagePrompt (businessName : JsStr)
  (businessInfo : option BusinessInfo)
  (recommendations : list Recommendation)
  (stylePreference : JsStr) (includeBooking : bool) (colorScheme : JsStr)
  : Result string :=
  bi <- readProps "business_type" businessInfo ;;
  let businessType := business_type bi in
  let industry := industry bi in
  let services := match services bi with Some l => l | None => [] end in
  let description := orEmpty (description bi) in
  let location := orEmpty (location bi) in
  let phone := orEmpty (phone bi) in
  let templateGuidance := _getIndustryTemplate industry businessType in
  Ok (promptText businessName businessType industry description location
        phone services stylePreference (colorSchemeText colorScheme)
        (bookingText includeBooking) (topRecommendations recommendations)
        templateGuidance).

(** *** generateHomepage *)

(** What one call observes of the outside world: the identifier drawn, the
    clock, and the answer of the completion provider to a prompt (the
    content of the first choice, or the message of the error raised while
    calling the provider or reading its response). *)
Record Env : Type := mkEnv {
  uuidv4 : string;
  startTime : nat;
  endTime : nat;
  isoNow : string;
  completion : string -> Result string
}.

Record GenerationResult : Type := mkResult {
  id : string;
  business_name : JsStr;
  generated_at : string;
  html_code : string;
  css_code : string;
  js_code : option string;
  style_applied : JsStr;
  features_included : list string;
  estimated_improvement : string;
  generation_time : nat
}.

Definition _generateHomepageCode (env : Env) (businessName : JsStr)
  (businessInfo : option BusinessInfo)
  (recommendations : list Recommendation)
  (stylePreference : JsStr) (includeBooking : bool) (colorScheme : JsStr)
  : Result string :=
  prompt <- _createHomepagePrompt businessName businessInfo recommendations
              stylePreference includeBooking colorScheme ;;
  rethrowAs "Failed to generate homepage code: "
    (content <- completion env prompt ;; Ok (trim content)).

(** The defaults of the destructured parameter: [stylePreference = 'modern']
    and [colorScheme = null] apply to [undefined] only. *)
Definition defaultTo (dflt v : JsStr) : JsStr :=
  match v with
  | Undefined => dflt
  | _ => v
  end.

Definition generateHomepage (env : Env) (analysisResult : AnalysisResult)
  (businessName stylePreference : JsStr) (includeBooking : bool)
  (colorScheme : JsStr) : Result GenerationResult :=
  let stylePreference := defaultTo (Str "modern") stylePreference in
  let colorScheme := defaultTo Null colorScheme in
  let generationId := uuidv4 env in
  rethrowAs "Homepage generation failed: "
    (let businessInfo := business_info analysisResult in
     let recommendations :=
       match recommendations analysisResult with
       | Some l => l
       | None => []
       end in
     homepageCode <- _generateHomepageCode env businessName businessInfo
                       recommendations stylePreference includeBooking
                       colorScheme ;;
     cssCode <- _generateCustomCSS businessInfo stylePreference colorScheme ;;
     let featuresIncluded :=
       _determineFeaturesIncluded recommendations includeBooking
         stylePreference in
     let estimatedImprovement :=
       _generateImprovementDescription recommendations featuresIncluded in
     let generationTime := endTime env - startTime env in
     Ok (mkResult generationId businessName (isoNow env) homepageCode cssCode
           (if includeBooking then Some _generateBookingJS else None)
           stylePreference featuresIncluded estimatedImprovement
           generationTime)).

End Generator.

(** ** The screenshot service (class [ScreenshotService]) *)

Module Screenshot.
Import Js.

(** The bytes of an image, and the handles of the browser and of its pages. *)
Definition Buffer : Type := list nat.
Definition Browser : Type := nat.
Definition Page : Type := nat.

(** *** The rendering engine, as the service sees it *)

(** The calls the service issues to the engine, in order. *)
Inductive Event : Type :=
| Launch (result : option Browser)
| BrowserClose (b : Browser)
| NewPage (b : Browser) (result : option Page)
| SetViewport (p : Page) (width height deviceScaleFactor : nat)
| SetContent (p : Page) (document : string)
| WaitForTimeout (p : Page) (ms : nat)
| TakeScreenshot (p : Page) (type : string) (fullPage : bool)
    (quality : option nat)
| PageClose (p : Page).

(** The pages that are open, the handle the next page gets, and the calls
    issued so far. *)
Record Engine : Type := mkEngine {
  openPages : list Page;
  nextPage : Page;
  events : list Event
}.

(** What is thrown: [NotInitialized] is
    [new Error('Screenshot service not initialized')], the others are the
    errors of the engine. *)
Inductive Error : Type :=
| NotInitialized
| LaunchFailed
| LoadTimeout
| EngineFailure (operation : string).

Inductive Completion (A : Type) : Type :=
| Return (a : A)
| Raise (e : Error).
Arguments Return {A} a.
Arguments Raise {A} e.

(** Computations that read and write a state and may throw. *)
Definition M (S A : Type) : Type := S -> Completion A * S.

Definition ret {S A : Type} (a : A) : M S A := fun s => (Return a, s).

Definition throw {S A : Type} (e : Error) : M S A := fun s => (Raise e, s).

Definition bind {S A B : Type} (m : M S A) (k : A -> M S B) : M S B :=
  fun s =>
    match m s with
    | (Return a, s') => k a s'
    | (Raise e, s') => (Raise e, s')
    end.

#[local] Notation "x <- m ;; k" := (bind m (fun x => k))
  (at level 61, m at next level, right associativity).
#[local] Notation "m ;;; k" := (bind m (fun _ => k))
  (at level 61, right associativity).

Definition gets {S A : Type} (f : S -> A) : M S A := fun s => (Return (f s), s).

Definition modify {S : Type} (f : S -> S) : M S unit :=
  fun s => (Return tt, f s).

(** [try { body } catch (error) { handler }] *)
Definition tryCatch {S A : Type} (body : M S A) (handler : Error -> M S A)
  : M S A :=
  fun s =>
    match body s with
    | (Return a, s') => (Return a, s')
    | (Raise e, s') => handler e s'
    end.

(** [try { body } finally { finalizer }]: the finalizer runs on every exit
    of the body; an error it throws replaces the completion of the body. *)
Definition tryFinally {S A : Type} (body : M S A) (finalizer : M S unit)
  : M S A :=
  fun s =>
    match body s with
    | (r, s') =>
        match finalizer s' with
        | (Return _, s'') => (r, s'')
        | (Raise e, s'') => (Raise e, s'')
        end
    end.

(** How the engine answers the calls of one capture. *)
Inductive LoadOutcome : Type := Loaded | TimedOut | LoadFailed.

Record Outcomes : Type := mkOutcomes {
  newPageOk : bool;
  setViewportOk : bool;
  setContentOutcome : LoadOutcome;
  waitForTimeoutOk : bool;
  screenshotResult : option Buffer;
  closeOk : bool
}.

Definition record (ev : Event) (e : Engine) : Engine :=
  mkEngine (openPages e) (nextPage e) (events e ++ [ev]).

(** An operation on an open page that either succeeds or fails. *)
Definition pageCall (ev : Event) (operation : string) (ok : bool)
  : M Engine unit :=
  fun e =>
    (if ok then Return tt else Raise (EngineFailure operation), record ev e).

(** [browser.newPage()] *)
Definition newPage (b : Browser) (ok : bool) : M Engine Page :=
  fun e =>
    if ok then
      let p := nextPage e in
      (Return p,
       mkEngine (p :: openPages e) (S p) (events e ++ [NewPage b (Some p)]))
    else (Raise (EngineFailure "newPage"), record (NewPage b None) e).

(** [page.setContent(html, { waitUntil, timeout: 30000 })] *)
Definition setContent (p : Page) (document : string) (o : LoadOutcome)
  : M Engine unit :=
  fun e =>
    (match o with
     | Loaded => Return tt
     | TimedOut => Raise LoadTimeout
     | LoadFailed => Raise (EngineFailure "setContent")
     end, record (SetContent p document) e).

(** [page.screenshot(options)] *)
Definition screenshot (p : Page) (type : string) (fullPage : bool)
  (quality : option nat) (result : option Buffer) : M Engine Buffer :=
  fun e =>
    (match result with
     | Some image => Return image
     | None => Raise (EngineFailure "screenshot")
     end, record (TakeScreenshot p type fullPage quality) e).

(** [page.close()]: a close that succeeds takes the page off the open ones.
    A close that reports an error has not been seen to close anything: the
    page is kept among the open ones. *)
Definition closePage (p : Page) (ok : bool) : M Engine unit :=
  fun e =>
    (if ok then Return tt else Raise (EngineFailure "close"),
     mkEngine
       (if ok then filter (fun q => negb (Nat.eqb q p)) (openPages e)
        else openPages e)
       (nextPage e) (events e ++ [PageClose p])).

(** [puppeteer.launch(...)] *)
Definition launch (result : option Browser) : M Engine Browser :=
  fun e =>
    (match result with
     | Some b => Return b
     | None => Raise LaunchFailed
     end, record (Launch result) e).

(** [browser.close()] *)
Definition closeBrowser (b : Browser) (ok : bool) : M Engine unit :=
  pageCall (BrowserClose b) "browser.close" ok.

(** *** The service object *)

Record Service : Type := mkService {
  browser : option Browser;
  isInitialized : bool
}.

(** [new ScreenshotService()] *)
Definition constructor : Service := mkService None false.

Record World : Type := mkWorld {
  this : Service;
  engine : Engine
}.

Definition onEngine {A : Type} (m : M Engine A) : M World A :=
  fun w =>
    match m (engine w) with
    | (r, e') => (r, mkWorld (this w) e')
    end.

Definition setBrowser (b : option Browser) : M World unit :=
  modify (fun w => mkWorld (mkService b (isInitialized (this w))) (engine w)).

Definition setIsInitialized (v : bool) : M World unit :=
  modify (fun w => mkWorld (mkService (browser (this w)) v) (engine w)).

(** [initialize()]; the console output is not modelled. *)
Definition initialize (launchResult : option Browser) : M World unit :=
  tryCatch
    (b <- onEngine (launch launchResult) ;;
     setBrowser (Some b) ;;;
     setIsInitialized true)
    (fun error => setIsInitialized false).

(** [cleanup()] *)
Definition cleanup (closeOk : bool) : M World unit :=
  b <- gets (fun w => browser (this w)) ;;
  match b with
  | Some b =>
      onEngine (closeBrowser b closeOk) ;;;
      setBrowser None ;;;
      setIsInitialized false
  | None => ret tt
  end.

(** The value of [this.isInitialized && this.browser]. *)
Inductive ReadyValue : Type :=
| ReadyFalse
| ReadyNull
| ReadyBrowser (b : Browser).

Definition isReady (s : Service) : ReadyValue :=
  if isInitialized s then
    match browser s with
    | Some b => ReadyBrowser b
    | None => ReadyNull
    end
  else ReadyFalse.

Definition truthyReady (v : ReadyValue) : bool :=
  match v with
  | ReadyBrowser _ => true
  | _ => false
  end.

(** *** _createCompleteHtml *)

Definition styleBlock (cssContent : string) : string :=
  "<style>" ++ cssContent ++ "</style>".

(** The generated document, up to the place of the style block. *)
Definition documentHead : string :=
"
<!DOCTYPE html>
<html lang=" ++ dq ++ "en" ++ dq ++ ">
<head>
    <meta charset=" ++ dq ++ "UTF-8" ++ dq ++ ">
    <meta name=" ++ dq ++ "viewport" ++ dq ++ " content=" ++ dq
    ++ "width=device-width, initial-scale=1.0" ++ dq ++ ">
    <title>Generated Homepage</title>
    ".

(** From the stylesheet link to the place of the fragment. *)
Definition documentLink : string :=
"
    <link href=" ++ dq
    ++ "https://cdn.jsdelivr.net/npm/tailwindcss@2.2.19/dist/tailwind.min.css"
    ++ dq ++ " rel=" ++ dq ++ "stylesheet" ++ dq ++ ">
</head>
<body>
    ".

Definition documentTail : string :=
"
</body>
</html>".

Definition looksComplete (htmlContent : string) : bool :=
  includes htmlContent "<!DOCTYPE html>" || includes htmlContent "<html".

Definition _createCompleteHtml (htmlContent cssContent : string) : string :=
  if looksComplete htmlContent then
    if negb (cssContent =? "") then
      if includes htmlContent "</head>" then
        replace htmlContent "</head>" (styleBlock cssContent ++ "</head>")
      else
        replace htmlContent "<html"
          ("<html><head>" ++ styleBlock cssContent ++ "</head><html")
    else htmlContent
  else
    documentHead
    ++ (if negb (cssContent =? "") then styleBlock cssContent else "")
    ++ documentLink ++ htmlContent ++ documentTail.

(** *** generateScreenshot *)

(** The [options] argument; [None] is a property that is not set. *)
Record Options : Type := mkOptions {
  width : option nat;
  height : option nat;
  deviceScaleFactor : option nat;
  fullPage : option bool;
  format : option string;
  quality : option nat
}.

Definition noOptions : Options := mkOptions None None None None None None.

(** The default of a destructured property. *)
Definition orDefault {A : Type} (dflt : A) (v : option A) : A :=
  match v with
  | Some a => a
  | None => dflt
  end.

(** The activation of one call: the world and the local [page]. *)
Record Frame : Type := mkFrame {
  world : World;
  page : option Page
}.

Definition onWorld {A : Type} (m : M World A) : M Frame A :=
  fun f =>
    match m (world f) with
    | (r, w') => (r, mkFrame w' (page f))
    end.

Definition setPage (p : option Page) : M Frame unit :=
  modify (fun f => mkFrame (world f) p).

(** [let page = null; ...] *)
Definition letPage {A : Type} (m : M Frame A) : M World A :=
  fun w =>
    match m (mkFrame w None) with
    | (r, f) => (r, world f)
    end.

Definition onPage {A : Type} (m : M Engine A) : M Frame A :=
  onWorld (onEngine m).

(** [generateScreenshot(htmlContent, cssContent, options)]; [o] tells how the
    engine answers; the console output of the [catch] block is not
    modelled. *)
Definition generateScreenshot (o : Outcomes) (htmlContent cssContent : string)
  (options : Options) : M World Buffer :=
  s <- gets this ;;
  match isInitialized s, browser s with
  | true, Some b =>
      let width := orDefault 1200 (width options) in
      let height := orDefault 800 (height options) in
      let deviceScaleFactor := orDefault 1 (deviceScaleFactor options) in
      let fullPage := orDefault true (fullPage options) in
      let format := orDefault "png" (format options) in
      let quality := orDefault 90 (quality options) in
      letPage
        (tryFinally
           (tryCatch
              (p <- onPage (newPage b (newPageOk o)) ;;
               setPage (Some p) ;;;
               onPage (pageCall (SetViewport p width height deviceScaleFactor)
                         "setViewport" (setViewportOk o)) ;;;
               let completeHtml := _createCompleteHtml htmlContent cssContent in
               onPage (setContent p completeHtml (setContentOutcome o)) ;;;
               onPage (pageCall (WaitForTimeout p 1000) "waitForTimeout"
                         (waitForTimeoutOk o)) ;;;
               onPage (screenshot p format fullPage
                         (if format =? "jpeg" then Some quality else None)
                         (screenshotResult o)))
              (fun error => throw error))
           (pg <- gets page ;;
            match pg with
            | Some p => onPage (closePage p (closeOk o))
            | None => ret tt
            end))
  | _, _ => throw NotInitialized
  end.

Section DataUrl.

(** [screenshot.toString('base64')] of the runtime. *)
Variable toBase64 : Buffer -> string.

Definition generateScreenshotDataUrl (o : Outcomes)
  (htmlContent cssContent : string) (options : Options) : M World string :=
  image <- generateScreenshot o htmlContent cssContent options ;;
  let format :=
    match format options with
    | Some f => if f =? "" then "png" else f
    | None => "png"
    end in
  ret ("data:image/" ++ format ++ ";base64," ++ toBase64 image).

(** *** generateResponsiveScreenshots *)

Definition viewports : list (string * Options) :=
  [ ("desktop", mkOptions (Some 1200) (Some 800) (Some 1) None None None);
    ("tablet", mkOptions (Some 768) (Some 1024) (Some 2) None None None);
    ("mobile", mkOptions (Some 375) (Some 667) (Some 2) None None None) ].

(** [{ ...viewport, fullPage: false }] *)
Definition windowed (viewport : Options) : Options :=
  mkOptions (width viewport) (height viewport) (deviceScaleFactor viewport)
    (Some false) (format viewport) (quality viewport).

(** [obj[key] = v] on an object with string keys: an existing key keeps
    its place, a new key goes last. *)
Fixpoint setProperty {A : Type} (key : string) (v : A)
  (obj : list (string * A)) : list (string * A) :=
  match obj with
  | [] => [(key, v)]
  | (k, old) :: rest =>
      if k =? key then (k, v) :: rest
      else (k, old) :: setProperty key v rest
  end.

(** The [for ... of Object.entries(viewports)] loop; [outcomes] tells how
    the engine answers the capture of each device. [None] is [null]. *)
Fixpoint forEachViewport (entries : list (string * Options))
  (outcomes : string -> Outcomes) (htmlContent cssContent : string)
  (screenshots : list (string * option string))
  : M World (list (string * option string)) :=
  match entries with
  | [] => ret screenshots
  | (device, viewport) :: rest =>
      v <- tryCatch
             (url <- generateScreenshotDataUrl (outcomes device) htmlContent
                       cssContent (windowed viewport) ;;
              ret (Some url))
             (fun error => ret None) ;;
      forEachViewport rest outcomes htmlContent cssContent
        (setProperty device v screenshots)
  end.

Definition generateResponsiveScreenshots (outcomes : string -> Outcomes)
  (htmlContent cssContent : string)
  : M World (list (string * option string)) :=
  forEachViewport viewports outcomes htmlContent cssContent [].

End DataUrl.

End Screenshot.

(** ** Request validation: the color schemes a request may carry *)

Module Validation.
Import Js.

Definition inRange (lo hi : nat) (c : ascii) : bool :=
  let n := nat_of_ascii c in Nat.leb lo n && Nat.leb n hi.

(** [[0-9A-Fa-f]] *)
Definition isHexDigit (c : ascii) : bool :=
  inRange 48 57 c || inRange 65 70 c || inRange 97 102 c.

(** [/^#[0-9A-Fa-f]{6}$/] *)
Definition hexPattern (s : string) : bool :=
  match s with
  | String c rest =>
      Ascii.eqb c "#" && Nat.eqb (String.length rest) 6
      && forallb isHexDigit (list_ascii_of_string rest)
  | EmptyString => false
  end.

Definition namedSchemes : list string :=
  ["blue"; "green"; "red"; "purple"; "orange"; "teal"; "indigo"].

Definition lowerChar (c : ascii) : ascii :=
  if inRange 65 90 c then ascii_of_nat (nat_of_ascii c + 32) else c.

(** [s.toLowerCase()] *)
Fixpoint toLowerCase (s : string) : string :=
  match s with
  | EmptyString => ""
  | String c rest => String (lowerChar c) (toLowerCase rest)
  end.

(** A hex color or a named token. *)
Definition hexOrNamed (s : string) : bool :=
  hexPattern s || existsb (String.eqb (toLowerCase s)) namedSchemes.


End Validation.

(** ** The derivations as the specification words them *)

Module Spec.
Import Js Generator.

(** A recommendation type occurs anywhere in the list. *)
Definition occurs (type : string) (recommendations : list Recommendation)
  : Prop :=
  In (Str type) (map rec_type recommendations).

Definition JsStr_eq_dec (a b : JsStr) : {a = b} + {a <> b}.
Proof. decide equality. apply string_dec. Defined.

Definition occurs_dec (type : string) (recommendations : list Recommendation)
  : {occurs type recommendations} + {~ occurs type recommendations} :=
  in_dec JsStr_eq_dec (Str type) (map rec_type recommendations).

(** The three known recommendation types with their feature tokens, in the
    fixed order. *)
Definition knownTypes : list (string * string) :=
  [ ("mobile_optimization", "mobile_optimized");
    ("seo_optimization", "seo_optimized");
    ("conversion_optimization", "conversion_optimized") ].

Definition featuresIncluded (recommendations : list Recommendation)
  (includeBooking : bool) (stylePreference : JsStr) : list string :=
  ["responsive_design"; "modern_layout"]
  ++ (if JsStr_eq_dec stylePreference (Str "modern")
      then ["modern_typography"; "gradient_backgrounds"] else [])
  ++ flat_map
       (fun entry =>
          if occurs_dec (fst entry) recommendations then [snd entry] else [])
       knownTypes
  ++ (if includeBooking then ["booking_integration"] else [])
  ++ ["call_to_action"; "contact_section"; "services_showcase"].

(** The closed lookup from recommendation type to phrase. *)
Definition phrases : list (string * string) :=
  [ ("design_improvement", "modern design");
    ("mobile_optimization", "mobile optimization");
    ("seo_optimization", "SEO optimization");
    ("conversion_optimization", "conversion optimization");
    ("performance_boost", "performance improvements") ].

Fixpoint lookup (table : list (string * string)) (key : string)
  : option string :=
  match table with
  | [] => None
  | (k, v) :: rest => if string_dec k key then Some v else lookup rest key
  end.

Definition phraseFor (type : JsStr) : string :=
  match type with
  | Str t =>
      match lookup phrases t with
      | Some phrase => phrase
      | None => "website enhancement"
      end
  | _ => "website enhancement"
  end.

(** De-duplication that keeps the first occurrence of every element. *)
Fixpoint distinct (l : list string) : list string :=
  match l with
  | [] => []
  | x :: rest =>
      x :: filter (fun y => if string_dec y x then false else true)
             (distinct rest)
  end.

Definition improvementNarrative (recommendations : list Recommendation)
  (featuresIncluded : list string) : string :=
  let phrasesSeen :=
    distinct (map (fun rec => phraseFor (rec_type rec)) recommendations) in
  "Implemented " ++ num (List.length recommendations)
  ++ " key improvements including "
  ++ join ", " (firstn 3 phrasesSeen)
  ++ (if le_lt_dec (List.length phrasesSeen) 3 then ""
      else ", and " ++ num (List.length phrasesSeen - 3)
           ++ " other improvements")
  ++ ". Features " ++ num (List.length featuresIncluded)
  ++ " modern web components for enhanced user experience and business growth.".






(** Membership and absence of repetition in a list of strings, decided by
    evaluation. *)
Definition memb (x : string) (l : list string) : bool :=
  existsb (String.eqb x) l.

Fixpoint nodupb (l : list string) : bool :=
  match l with
  | [] => true
  | x :: rest => negb (memb x rest) && nodupb rest
  end.

End Spec.

(** ** Observations on the engine trace and on sequences of calls *)

Module Lifecycle.
Import Js Screenshot.

(** The pages a stretch of the trace opened. *)
Fixpoint opened (trace : list Event) : list Page :=
  match trace with
  | [] => []
  | NewPage _ (Some p) :: rest => p :: opened rest
  | _ :: rest => opened rest
  end.

(** The pages whose close a stretch of the trace asks for. *)
Fixpoint closeCalls (trace : list Event) : list Page :=
  match trace with
  | [] => []
  | PageClose p :: rest => p :: closeCalls rest
  | _ :: rest => closeCalls rest
  end.

(** The number of [newPage] calls issued, successful or not. *)
Fixpoint newPageCalls (trace : list Event) : nat :=
  match trace with
  | [] => 0
  | NewPage _ _ :: rest => S (newPageCalls rest)
  | _ :: rest => newPageCalls rest
  end.

(** Page identifiers are handed out in increasing order. *)
Definition wellFormed (e : Engine) : Prop :=
  Forall (fun q => q < nextPage e) (openPages e).

Definition ready (s : Service) (b : Browser) : Prop :=
  browser s = Some b /\ isInitialized s = true.

(** The engine answers every call of a capture successfully. *)
Definition allOk (o : Outcomes) : bool :=
  newPageOk o && setViewportOk o
  && match setContentOutcome o with Loaded => true | _ => false end
  && waitForTimeoutOk o
  && match screenshotResult o with Some _ => true | None => false end
  && closeOk o.

(** The calls a client makes once the service exists. *)
Inductive Call : Type :=
| CallInitialize (launchResult : option Browser)
| CallCleanup (closeOk : bool)
| CallIsReady
| CallCapture (o : Outcomes) (htmlContent cssContent : string)
    (options : Options).

(** What a client observes of one call. *)
Inductive Observation : Type :=
| Done
| Threw (e : Error)
| Ready (v : ReadyValue)
| Image (image : Buffer).

Definition observe {A : Type} (f : A -> Observation) (r : Completion A)
  : Observation :=
  match r with
  | Return a => f a
  | Raise e => Threw e
  end.

Definition call (c : Call) (w : World) : Observation * World :=
  match c with
  | CallInitialize launchResult =>
      let (r, w') := initialize launchResult w in
      (observe (fun _ => Done) r, w')
  | CallCleanup ok =>
      let (r, w') := cleanup ok w in (observe (fun _ => Done) r, w')
  | CallIsReady => (Ready (isReady (this w)), w)
  | CallCapture o html css options =>
      let (r, w') := generateScreenshot o html css options w in
      (observe Image r, w')
  end.

(** The observations of a sequence of calls, in order. *)
Fixpoint calls (cs : list Call) (w : World) : list Observation :=
  match cs with
  | [] => []
  | c :: rest => let (obs, w') := call c w in obs :: calls rest w'
  end.

(** The life cycle a client may rely on, [ready] telling whether the
    service is ready before the calls. [initialize] returns normally, and
    the service is ready after it exactly when the launch succeeded. A
    [cleanup] either returns normally, and the service is not ready after
    it, or throws the error of a browser close that failed, and the
    readiness is what it was. A readiness check answers [ready]. A capture
    fails as not initialized when the service is not ready; when it is
    ready, the capture does not fail in that way and returns an image
    exactly when the engine answers all its calls. *)
Fixpoint lifeCycle (ready : bool) (cs : list Call)
  (observations : list Observation) : Prop :=
  match cs, observations with
  | [], [] => True
  | CallInitialize launchResult :: cs', obs :: rest =>
      obs = Done
      /\ lifeCycle (match launchResult with Some _ => true | None => false end)
           cs' rest
  | CallCleanup ok :: cs', obs :: rest =>
      (obs = Done /\ lifeCycle false cs' rest)
      \/ (obs = Threw (EngineFailure "browser.close") /\ ok = false
          /\ lifeCycle ready cs' rest)
  | CallIsReady :: cs', obs :: rest =>
      (exists v, obs = Ready v /\ truthyReady v = ready)
      /\ lifeCycle ready cs' rest
  | CallCapture o _ _ _ :: cs', obs :: rest =>
      (if ready
       then ((exists image, obs = Image image) <-> allOk o = true)
            /\ obs <> Threw NotInitialized
       else obs = Threw NotInitialized)
      /\ lifeCycle ready cs' rest
  | _, _ => False
  end.

(** The entry of the responsive record for one completed capture. *)
Definition entryOf (r : Completion string) : option string :=
  match r with
  | Return url => Some url
  | Raise _ => None
  end.

End Lifecycle.

(** ** The replacement patterns of [String.prototype.replace] *)

Module Replacement.

(** The text holds no dollar sign. *)
Fixpoint noDollar (s : string) : bool :=
  match s with
  | EmptyString => true
  | String c rest => negb (Ascii.eqb c "$") && noDollar rest
  end.

(** What a dollar sign followed by [k] stands for, for a match of [matched]
    between [preceding] and [following]. *)
Definition expandPattern (k : ascii) (matched preceding following : string)
  : string :=
  if Ascii.eqb k "$" then "$"
  else if Ascii.eqb k "&" then matched
  else if Ascii.eqb k "`" then preceding
  else following.

End Replacement.

(** ** The ends of a text *)

Module TextEnds.

(** The text is one white-space character. *)
Definition whiteSpaceChar (w : string) : Prop := Js.afterSpace w = Some "".

(** The text is made of white-space characters. *)
Inductive whiteSpace : string -> Prop :=
| whiteSpace_empty : whiteSpace ""
| whiteSpace_more (w rest : string) :
    whiteSpaceChar w -> whiteSpace rest -> whiteSpace (w ++ rest).

(** The text neither starts nor ends with a white-space character. *)
Definition trimmed (s : string) : Prop :=
  (forall w rest, whiteSpaceChar w -> s <> w ++ rest)
  /\ (forall front w, whiteSpaceChar w -> s <> front ++ w).

(** The text holds a byte that belongs to no white-space character: an
    ASCII character other than the six ASCII white-space characters. *)
Definition plain (c : ascii) : bool :=
  negb (Js.isSpace c) && Nat.ltb (nat_of_ascii c) 128.

Fixpoint hasPlain (s : string) : bool :=
  match s with
  | EmptyString => false
  | String c rest => plain c || hasPlain rest
  end.

End TextEnds.

(** ** The inputs of the generation pipeline *)

Module Pipeline.
Import Generator.

(** [analysisResult.recommendations || []] *)
Definition recommendationsOf (analysis : AnalysisResult) : list Recommendation :=
  match recommendations analysis with
  | Some l => l
  | None => []
  end.

End Pipeline.

(** ** Request helpers of the validation module ([validation.js]) *)

Module Sanitizer.

(** Where character classes and lengths matter, a string is the list of its
    UTF-16 code units. *)
Definition Text : Type := list N.

(** The code units of an ASCII literal. *)
Definition units (s : string) : Text :=
  map N_of_ascii (list_ascii_of_string s).

Definition oneOf (l : list N) (u : N) : bool := existsb (N.eqb u) l.

(** [\s] of a regular expression, which is also what [trim] removes: the
    white space and line terminators of ECMA-262. *)
Definition isWhiteSpace (u : N) : bool :=
  oneOf [9; 10; 11; 12; 13; 32; 160; 5760; 8232; 8233; 8239; 8287; 12288;
         65279]%N u
  || (N.leb 8192 u && N.leb u 8202).

(** The character class of the first replacement: the angle brackets, the
    single and the double quote, and the ampersand. *)
Definition isInjectionChar (u : N) : bool := oneOf [60; 62; 39; 34; 38]%N u.

(** [\d] *)
Definition isDigit (u : N) : bool := N.leb 48 u && N.leb u 57.

(** [[0-9A-Fa-f]] *)
Definition isHex (u : N) : bool :=
  isDigit u || (N.leb 65 u && N.leb u 70) || (N.leb 97 u && N.leb u 102).

(** The first [.replace(..., '')]: every such character is removed. *)
Definition removeInjectionChars (s : Text) : Text :=
  filter (fun u => negb (isInjectionChar u)) s.

(** [.replace(/\s+/g, ' ')]: every maximal run of white space becomes one
    space; [inRun] tells that the unit before was white space. *)
Fixpoint collapseFrom (inRun : bool) (s : Text) : Text :=
  match s with
  | [] => []
  | u :: rest =>
      if isWhiteSpace u then
        if inRun then collapseFrom true rest
        else 32%N :: collapseFrom true rest
      else u :: collapseFrom false rest
  end.

Definition normalizeWhitespace (s : Text) : Text := collapseFrom false s.

Fixpoint dropWhile (f : N -> bool) (s : Text) : Text :=
  match s with
  | u :: rest => if f u then dropWhile f rest else s
  | [] => []
  end.

Fixpoint trimEnd (s : Text) : Text :=
  match s with
  | [] => []
  | u :: rest =>
      match trimEnd rest with
      | [] => if isWhiteSpace u then [] else [u]
      | kept => u :: kept
      end
  end.

(** [.trim()] *)
Definition trim (s : Text) : Text := trimEnd (dropWhile isWhiteSpace s).

(** [.substring(0, n)] *)
Definition substring0 (n : nat) (s : Text) : Text := firstn n s.

(** The argument of a helper that expects a string: a string, or any other
    value. *)
Inductive Arg : Type :=
| NotAString
| Chars (s : Text).

(** [sanitizeBusinessName(name)] *)
Definition sanitizeBusinessName (name : Arg) : Text :=
  match name with
  | NotAString => units "Business"
  | Chars [] => units "Business"
  | Chars s =>
      substring0 100 (trim (normalizeWhitespace (removeInjectionChars s)))
  end.

(** [/^#[0-9A-Fa-f]{6}$/] *)
Definition hexPattern (s : Text) : bool :=
  match s with
  | 35%N :: digits => Nat.eqb (List.length digits) 6 && forallb isHex digits
  | _ => false
  end.

Fixpoint stripPrefix (p s : Text) : option Text :=
  match p, s with
  | [], _ => Some s
  | a :: p', b :: s' => if N.eqb a b then stripPrefix p' s' else None
  | _ :: _, [] => None
  end.

(** [\s*\d+\s*] at the head of the text: what follows it, when it matches. *)
Definition component (s : Text) : option Text :=
  match dropWhile isWhiteSpace s with
  | u :: rest =>
      if isDigit u
      then Some (dropWhile isWhiteSpace (dropWhile isDigit rest))
      else None
  | [] => None
  end.

(** [/^rgb\(\s*\d+\s*,\s*\d+\s*,\s*\d+\s*\)$/] *)
Definition rgbPattern (s : Text) : bool :=
  match stripPrefix (units "rgb(") s with
  | None => false
  | Some red =>
      match component red with
      | Some (44%N :: green) =>
          match component green with
          | Some (44%N :: blue) =>
              match component blue with
              | Some [41%N] => true
              | _ => false
              end
          | _ => false
          end
      | _ => false
      end
  end.

Definition namedSchemes : list Text :=
  map units ["blue"; "green"; "red"; "purple"; "orange"; "teal"; "indigo"].

(** [.toLowerCase()] on the letters A to Z; no other code unit lowercases
    to a letter of a named scheme, so the membership test below is the one
    of the source. *)
Definition toLowerCase (s : Text) : Text :=
  map (fun u => if N.leb 65 u && N.leb u 90 then N.add u 32 else u) s.

Fixpoint textEqb (a b : Text) : bool :=
  match a, b with
  | [], [] => true
  | x :: a', y :: b' => N.eqb x y && textEqb a' b'
  | _, _ => false
  end.

(** [validateColorScheme(colorScheme)] for a string or a null or undefined
    argument ([None]); the result [None] is [null]. *)
Definition validateColorScheme (colorScheme : option Text) : option Text :=
  match colorScheme with
  | None => None
  | Some [] => None
  | Some s =>
      if hexPattern s || rgbPattern s then Some s
      else if existsb (textEqb (toLowerCase s)) namedSchemes
           then Some (toLowerCase s)
           else None
  end.

(** A field read with a default: [v || dflt] for a string field, where the
    empty string is falsy like a missing field. *)
Definition orText (dflt : Text) (v : option Text) : Text :=
  match v with
  | Some (u :: s) => u :: s
  | _ => dflt
  end.

Section Extract.

(** The numbers of the runtime, with their truthiness and the literal 0.5. *)
Variable Number : Type.
Variable numberTruthy : Number -> bool.
Variable half : Number.

(** The recommendations are passed through as they are. *)
Variable Recommendation : Type.

(** [analysisResult.business_info]; a field that is missing or [null] is
    [None]. *)
Record RawBusinessInfo : Type := mkRawBusinessInfo {
  raw_name : Arg;
  raw_business_type : option Text;
  raw_industry : option Text;
  raw_description : option Text;
  raw_services : option (list Text);
  raw_location : option Text;
  raw_phone : option Text;
  raw_email : option Text;
  raw_confidence : option Number
}.

Record RawAnalysis : Type := mkRawAnalysis {
  raw_business_info : option RawBusinessInfo;
  raw_title : option Text;
  raw_recommendations : option (list Recommendation)
}.

Record SafeData : Type := mkSafeData {
  businessName : Text;
  businessType : Text;
  industry : Text;
  description : Text;
  services : list Text;
  location : Text;
  phone : Text;
  email : Text;
  originalTitle : Text;
  topRecommendations : list Recommendation;
  confidence : Number
}.

(** [analysisResult.business_info || {}] *)
Definition noBusinessInfo : RawBusinessInfo :=
  mkRawBusinessInfo NotAString None None None None None None None None.

(** [extractSafeAnalysisData(analysisResult)]; [raw_title] is
    [(analysisResult.website_content || {}).title]. *)
Definition extractSafeAnalysisData (analysisResult : RawAnalysis) : SafeData :=
  let businessInfo :=
    match raw_business_info analysisResult with
    | Some bi => bi
    | None => noBusinessInfo
    end in
  let recommendations :=
    match raw_recommendations analysisResult with
    | Some l => l
    | None => []
    end in
  mkSafeData
    (sanitizeBusinessName (raw_name businessInfo))
    (orText (units "other") (raw_business_type businessInfo))
    (orText (units "other") (raw_industry businessInfo))
    (substring0 500 (orText [] (raw_description businessInfo)))
    (firstn 10 (match raw_services businessInfo with Some l => l | None => [] end))
    (orText [] (raw_location businessInfo))
    (orText [] (raw_phone businessInfo))
    (orText [] (raw_email businessInfo))
    (substring0 100 (orText [] (raw_title analysisResult)))
    (firstn 5 recommendations)
    (match raw_confidence businessInfo with
     | Some c => if numberTruthy c then c else half
     | None => half
     end).

End Extract.

(** The shapes of a sanitized name: no injection character, white space
    only as single spaces, and none at the front. *)
Fixpoint singleSpaced (s : Text) : bool :=
  match s with
  | [] => true
  | u :: rest =>
      (if isWhiteSpace u
       then N.eqb u 32
            && match rest with
               | v :: _ => negb (isWhiteSpace v)
               | [] => true
               end
       else true)
      && singleSpaced rest
  end.

Definition startsClean (s : Text) : bool :=
  match s with
  | u :: _ => negb (isWhiteSpace u)
  | [] => true
  end.

Fixpoint endsClean (s : Text) : bool :=
  match s with
  | [] => true
  | [u] => negb (isWhiteSpace u)
  | _ :: rest => endsClean rest
  end.

End Sanitizer.

(** ** Saving a screenshot to a file ([generateScreenshotFile]) *)

Module ScreenshotFiles.
Import Js Screenshot.

(** The calls issued to the file system, in order. *)
Inductive FsCall : Type :=
| Mkdir (dir : string)
| WriteFile (path : string) (data : Buffer).

(** How the file system answers the two calls. *)
Record FsOutcomes : Type := mkFsOutcomes {
  mkdirOk : bool;
  writeFileOk : bool
}.

Record Machine : Type := mkMachine {
  services : World;
  fsCalls : list FsCall
}.

Inductive FileError : Type :=
| CaptureError (e : Error)
| FsError (operation : string).

Inductive FileCompletion : Type :=
| Saved (path : string)
| Failed (e : FileError).

Section File.

(** [path.dirname] of the runtime. *)
Variable dirname : string -> string.

(** [generateScreenshotFile(htmlContent, cssContent, outputPath, options)] *)
Definition generateScreenshotFile (o : Outcomes) (fs : FsOutcomes)
  (htmlContent cssContent outputPath : string) (options : Options)
  (m : Machine) : FileCompletion * Machine :=
  match generateScreenshot o htmlContent cssContent options (services m) with
  | (Raise e, w) => (Failed (CaptureError e), mkMachine w (fsCalls m))
  | (Return image, w) =>
      let outputDir := dirname outputPath in
      let afterMkdir := (fsCalls m ++ [Mkdir outputDir])%list in
      if mkdirOk fs then
        let afterWrite := (afterMkdir ++ [WriteFile outputPath image])%list in
        if writeFileOk fs then (Saved outputPath, mkMachine w afterWrite)
        else (Failed (FsError "writeFile"), mkMachine w afterWrite)
      else (Failed (FsError "mkdir"), mkMachine w afterMkdir)
  end.

End File.

(** The files a stretch of file-system calls wrote. *)
Fixpoint written (calls : list FsCall) : list string :=
  match calls with
  | [] => []
  | WriteFile path _ :: rest => path :: written rest
  | Mkdir _ :: rest => written rest
  end.

End ScreenshotFiles.

(** ** The engine calls of one capture, as a specification *)

Module CaptureSteps.
Import Js Screenshot.

(** The calls made on the page of a capture, in the order of the source. *)
Definition pageSteps (p : Page) (htmlContent cssContent : string)
  (options : Options) : list Event :=
  let format := orDefault "png" (format options) in
  [ SetViewport p (orDefault 1200 (width options))
      (orDefault 800 (height options))
      (orDefault 1 (deviceScaleFactor options));
    SetContent p (_createCompleteHtml htmlContent cssContent);
    WaitForTimeout p 1000;
    TakeScreenshot p format (orDefault true (fullPage options))
      (if format =? "jpeg" then Some (orDefault 90 (quality options))
       else None) ].

(** The error of the first page call that fails, if any. *)
Definition firstFailure (o : Outcomes) : option Error :=
  if negb (setViewportOk o) then Some (EngineFailure "setViewport")
  else match setContentOutcome o with
       | TimedOut => Some LoadTimeout
       | LoadFailed => Some (EngineFailure "setContent")
       | Loaded =>
           if negb (waitForTimeoutOk o)
           then Some (EngineFailure "waitForTimeout")
           else match screenshotResult o with
                | None => Some (EngineFailure "screenshot")
                | Some _ => None
                end
       end.

(** How many page calls are issued: up to and including the first that
    fails. *)
Definition stepsIssued (o : Outcomes) : nat :=
  if negb (setViewportOk o) then 1
  else match setContentOutcome o with
       | Loaded => if negb (waitForTimeoutOk o) then 3 else 4
       | _ => 2
       end.

(** What a capture completes with once the engine has given a page: the
    error of the close when the close fails, else the first failure of a
    page call, else the image. *)
Definition captureResult (o : Outcomes) : Completion Buffer :=
  if closeOk o then
    match firstFailure o with
    | Some e => Raise e
    | None =>
        match screenshotResult o with
        | Some image => Return image
        | None => Raise (EngineFailure "screenshot")
        end
    end
  else Raise (EngineFailure "close").

(** The media type a data URL announces. *)
Definition mediaType (options : Options) : string :=
  match format options with
  | Some f => if f =? "" then "png" else f
  | None => "png"
  end.

(** The engine calls that close a browser. *)
Fixpoint browserCloses (trace : list Event) : nat :=
  match trace with
  | [] => 0
  | BrowserClose _ :: rest => S (browserCloses rest)
  | _ :: rest => browserCloses rest
  end.

End CaptureSteps.

(** ** The application: the two services and the health check ([main.js]) *)

Module App.
Import Js Screenshot.

(** The fields of [HomepageGenerator] that [isReady] reads; the constructor
    also stores the client and its configuration. *)
Record HomepageGenerator : Type := mkGenerator {
  apiKey : JsStr;
  ready : bool
}.

(** [new HomepageGenerator(apiKey)] *)
Definition newGenerator (key : JsStr) : HomepageGenerator :=
  mkGenerator key false.

(** [generator.initialize()] *)
Definition generatorInitialize (g : HomepageGenerator) : HomepageGenerator :=
  mkGenerator (apiKey g) true.

(** [generator.isReady()]: [this.ready && !!this.apiKey] *)
Definition generatorIsReady (g : HomepageGenerator) : bool :=
  ready g && truthy (apiKey g).

Record Application : Type := mkApplication {
  openaiApiKey : JsStr;
  generator : HomepageGenerator;
  screenshotService : World
}.

(** The module-level set-up: both services are constructed with the key of
    the environment. *)
Definition boot (key : JsStr) (e : Engine) : Application :=
  mkApplication key (newGenerator key) (mkWorld constructor e).

(** The [listen] callback: both services are initialized, each inside its
    own [try]. *)
Definition startup (launchResult : option Browser) (app : Application)
  : Application :=
  let g := generatorInitialize (generator app) in
  let (_, w) := initialize launchResult (screenshotService app) in
  mkApplication (openaiApiKey app) g w.

(** The [status] of the health check: every entry of [checks] is truthy. *)
Definition healthStatus (app : Application) : string :=
  let checks :=
    [ truthy (openaiApiKey app);
      generatorIsReady (generator app);
      truthyReady (isReady (this (screenshotService app)));
      true ] in
  if forallb (fun check => check) checks then "healthy" else "unhealthy".

(** The shutdown handlers: [cleanup] is awaited before the server closes. *)
Definition shutdown (closeOk : bool) (app : Application)
  : Completion unit * Application :=
  let (r, w) := cleanup closeOk (screenshotService app) in
  (r, mkApplication (openaiApiKey app) (generator app) w).

End App.

(** * Facts on strings shared by the proofs below *)

Module StringFacts.
Import Js.

Lemma append_assoc (a b c : string) : (a ++ b) ++ c = a ++ b ++ c.
Proof. induction a as [|x a IH]; simpl; [reflexivity | now rewrite IH]. Qed.

Lemma startsWith_append (x t : string) : startsWith x (x ++ t) = true.
Proof.
  induction x as [|c x IH]; simpl; [reflexivity|].
  now rewrite Ascii.eqb_refl.
Qed.

Lemma includes_here (x t : string) : includes (x ++ t) x = true.
Proof.
  destruct (x ++ t) eqn:E; simpl; rewrite <- E, startsWith_append;
    reflexivity.
Qed.

Lemma includes_skip (a t x : string) :
  includes t x = true -> includes (a ++ t) x = true.
Proof.
  intros H. induction a as [|c a IH]; simpl; [assumption|].
  rewrite IH. apply orb_true_r.
Qed.

End StringFacts.

(** * Properties of the generator *)

Module GeneratorProps.
Import Js Generator Validation Spec StringFacts.

(** ** Field values and membership *)

Lemma strictEq_true (v : JsStr) (lit : string) :
  strictEq v lit = true <-> v = Str lit.
Proof.
  destruct v as [| |s]; simpl; try (split; discriminate).
  rewrite String.eqb_eq. split; [intros ->; reflexivity | congruence].
Qed.

Lemma arrIncludes_occurs (recs : list Recommendation) (type : string) :
  arrIncludes (map rec_type recs) type = true <-> Spec.occurs type recs.
Proof.
  unfold arrIncludes, Spec.occurs. rewrite existsb_exists. split.
  - intros [v [Hin Heq]]. apply strictEq_true in Heq. now subst.
  - intros Hin. exists (Str type). split; [assumption|].
    now apply strictEq_true.
Qed.

Lemma occurs_dec_includes (recs : list Recommendation) (type : string)
  (A : Type) (x y : A) :
  (if Spec.occurs_dec type recs then x else y)
  = (if arrIncludes (map rec_type recs) type then x else y).
Proof.
  destruct (Spec.occurs_dec type recs) as [H|H];
    destruct (arrIncludes (map rec_type recs) type) eqn:E; try reflexivity.
  - apply arrIncludes_occurs in H. congruence.
  - apply arrIncludes_occurs in E. contradiction.
Qed.

Lemma modern_dec_strictEq (s : JsStr) (A : Type) (x y : A) :
  (if Spec.JsStr_eq_dec s (Str "modern") then x else y)
  = (if strictEq s "modern" then x else y).
Proof.
  destruct (Spec.JsStr_eq_dec s (Str "modern")) as [H|H];
    destruct (strictEq s "modern") eqn:E; try reflexivity.
  - apply strictEq_true in H. congruence.
  - apply strictEq_true in E. contradiction.
Qed.

Lemma memb_In (x : string) (l : list string) : memb x l = true <-> In x l.
Proof.
  unfold memb. rewrite existsb_exists. split.
  - intros [y [Hin Heq]]. apply String.eqb_eq in Heq. now subst.
  - intros Hin. exists x. split; [assumption | apply String.eqb_refl].
Qed.

Lemma nodupb_NoDup (l : list string) : nodupb l = true -> NoDup l.
Proof.
  induction l as [|x rest IH]; simpl; intros H; constructor.
  - apply andb_prop in H as [H _]. intros Hin. apply memb_In in Hin.
    rewrite Hin in H. discriminate.
  - apply IH. now apply andb_prop in H as [_ H].
Qed.

Lemma memb_iff (x : string) (l : list string) (P : Prop) (b : bool) :
  memb x l = b -> (b = true <-> P) -> (In x l <-> P).
Proof. intros <- H. now rewrite <- memb_In. Qed.

(** ** C1: the feature list *)

(** C1. For every recommendations list, booking flag and style preference,
    [_determineFeaturesIncluded] returns exactly the ordered list the
    specification builds: the two baseline tokens, the two modern-style
    tokens exactly when the style is "modern", one token for each of the
    three known recommendation types that occurs anywhere in the
    recommendations (in the fixed order, once however often the type
    occurs), the booking token exactly when booking is requested, and the
    three closing tokens. No token is repeated. *)
Theorem features_included_as_specified
  (recs : list Recommendation) (includeBooking : bool) (style : JsStr) :
  let features := _determineFeaturesIncluded recs includeBooking style in
  features = Spec.featuresIncluded recs includeBooking style
  /\ NoDup features
  /\ (In "modern_typography" features <-> style = Str "modern")
  /\ (In "gradient_backgrounds" features <-> style = Str "modern")
  /\ (In "mobile_optimized" features
      <-> Spec.occurs "mobile_optimization" recs)
  /\ (In "seo_optimized" features <-> Spec.occurs "seo_optimization" recs)
  /\ (In "conversion_optimized" features
      <-> Spec.occurs "conversion_optimization" recs)
  /\ (In "booking_integration" features <-> includeBooking = true).
Proof.
  cbv zeta. split.
  - unfold Spec.featuresIncluded, Spec.knownTypes, _determineFeaturesIncluded,
      pushIf. cbn [flat_map fst snd].
    rewrite modern_dec_strictEq. rewrite !occurs_dec_includes.
    destruct (strictEq style "modern"),
      (arrIncludes (map rec_type recs) "mobile_optimization"),
      (arrIncludes (map rec_type recs) "seo_optimization"),
      (arrIncludes (map rec_type recs) "conversion_optimization"),
      includeBooking; reflexivity.
  - rewrite <- (strictEq_true style "modern").
    rewrite <- !arrIncludes_occurs.
    unfold _determineFeaturesIncluded, pushIf.
    destruct (strictEq style "modern"),
      (arrIncludes (map rec_type recs) "mobile_optimization"),
      (arrIncludes (map rec_type recs) "seo_optimization"),
      (arrIncludes (map rec_type recs) "conversion_optimization"),
      includeBooking;
      (split; [apply nodupb_NoDup; reflexivity|]);
      repeat split;
      try (intros _; apply memb_In; reflexivity);
      try discriminate;
      try (intros H; apply memb_In in H; discriminate H).
Qed.

(** ** C2, C8, C10: the palette and template catalogs *)

Lemma ownProperty_In (A : Type) (table : list (string * A)) (key : string)
  (a : A) :
  ownProperty table key = Some a -> In (key, a) table.
Proof.
  induction table as [|[k v] rest IH]; simpl; [discriminate|].
  destruct (k =? key) eqn:E.
  - apply String.eqb_eq in E. intros [= ->]. left. now subst.
  - intros H. right. now apply IH.
Qed.

Lemma hexOrNamed_truthy (c : string) :
  hexOrNamed c = true -> truthy (Str c) = true.
Proof. destruct c; [discriminate | reflexivity]. Qed.

(** A palette read for an absent color scheme is an entry of the table or a
    built-in inherited from the prototype. *)
Lemma catalog_palette_cases (industry : JsStr) :
  (exists name, _getBaseColors Null industry = Builtin name)
  \/ (exists key p, In (key, p) industryColors
                    /\ _getBaseColors Null industry = Own p).
Proof.
  unfold _getBaseColors, getOrDefault, get. simpl truthy. cbv iota.
  destruct (ownProperty industryColors (tpl industry)) as [p|] eqn:E.
  - right. exists (tpl industry), p. split;
      [now apply ownProperty_In | reflexivity].
  - destruct (existsb (String.eqb (tpl industry)) objectPrototypeKeys).
    + left. now eexists.
    + right. exists "default", industryColorsDefault. split;
        [simpl; tauto | reflexivity].
Qed.

Lemma catalog_palettes_differ_from_override (key : string) (p : Palette) :
  In (key, p) industryColors -> p <> overridePalette.
Proof.
  simpl. intros H.
  repeat (destruct H as [H|H]; [inversion H; discriminate|]).
  contradiction.
Qed.

(** Keys that are neither entries of the tables nor names inherited from
    the prototype get the default entries. *)
Lemma unrecognized_key_gets_default (key : string) (businessType : JsStr) :
  ownProperty templates key = None ->
  ownProperty industryColors key = None ->
  existsb (String.eqb key) objectPrototypeKeys = false ->
  _getIndustryTemplate (Str key) businessType = Own templatesDefault
  /\ _getBaseColors Null (Str key) = Own industryColorsDefault.
Proof.
  intros Ht Hc Hp.
  unfold _getIndustryTemplate, _getBaseColors, getOrDefault, get.
  simpl tpl. simpl truthy. cbv iota. now rewrite Ht, Hc, Hp.
Qed.

(** C2. Whenever the color scheme is supplied (a hex color or a named
    token), the palette behind the custom CSS variables is the fixed
    palette #3B82F6 / #1E40AF / #EF4444, whatever the value and whatever
    the industry; with a null color scheme every industry that has an
    entry in the color catalog gets that entry, an industry that has none
    (and does not name a property of the object prototype) gets the
    default entry, and healthcare gets #10B981 / #059669 / #3B82F6. *)
Theorem base_colors_fixed_or_catalog (c : string) (industry : JsStr) :
  hexOrNamed c = true ->
  _getBaseColors (Str c) industry
  = Own (mkPalette "#3B82F6" "#1E40AF" "#EF4444")
  /\ (forall key p, In (key, p) industryColors ->
                    _getBaseColors Null (Str key) = Own p)
  /\ (forall key, ownProperty industryColors key = None ->
                  existsb (String.eqb key) objectPrototypeKeys = false ->
                  _getBaseColors Null (Str key)
                  = Own (mkPalette "#3B82F6" "#1E40AF" "#10B981"))
  /\ _getBaseColors Null (Str "healthcare")
     = Own (mkPalette "#10B981" "#059669" "#3B82F6").
Proof.
  intros Hc. split; [|split; [|split]].
  - unfold _getBaseColors. now rewrite (hexOrNamed_truthy c Hc).
  - simpl. intros key p H.
    repeat (destruct H as [H|H]; [inversion H; reflexivity|]).
    contradiction.
  - intros key Hown Hproto.
    unfold _getBaseColors, getOrDefault, get. simpl tpl. simpl truthy.
    cbv iota. now rewrite Hown, Hproto.
  - reflexivity.
Qed.

Lemma base_colors_fixed_or_catalog_witness :
  hexOrNamed "#FF0000" = true
  /\ _getBaseColors (Str "#FF0000") (Str "healthcare")
     = Own (mkPalette "#3B82F6" "#1E40AF" "#EF4444").
Proof.
  split; [reflexivity|].
  exact (proj1 (base_colors_fixed_or_catalog "#FF0000" (Str "healthcare")
                  eq_refl)).
Defined.

(** C8. The template catalog has an entry for retail, the color catalog has
    none: a retail business gets the retail guidance and the default
    palette. A key that names a property inherited from the object
    prototype, such as "constructor", gets the built-in object from both
    lookups instead of the default entry. *)
Theorem retail_has_guidance_but_no_palette (businessType : JsStr) :
  (exists guidance,
      ownProperty templates "retail" = Some guidance
      /\ guidance <> templatesDefault
      /\ _getIndustryTemplate (Str "retail") businessType = Own guidance)
  /\ ownProperty industryColors "retail" = None
  /\ _getBaseColors Null (Str "retail") = Own industryColorsDefault
  /\ _getIndustryTemplate (Str "constructor") businessType
     = Builtin "constructor"
  /\ _getBaseColors Null (Str "constructor") = Builtin "constructor".
Proof.
  split; [|repeat split].
  eexists. split; [reflexivity|]. split; [discriminate | reflexivity].
Qed.

(** ** C7: the improvement narrative *)

Lemma improvementType_phraseFor (rec : Recommendation) :
  improvementType rec = phraseFor (rec_type rec).
Proof.
  unfold improvementType, phraseFor.
  destruct (rec_type rec) as [| |t]; try reflexivity.
  unfold strictEq, phrases, lookup.
  repeat match goal with
         | |- context [string_dec ?k t] =>
             destruct (string_dec k t) as [<-|Hne];
             [reflexivity
             | apply not_eq_sym in Hne; apply String.eqb_neq in Hne;
               rewrite Hne; clear Hne]
         end.
  reflexivity.
Qed.

Lemma filter_filter (A : Type) (f g : A -> bool) (l : list A) :
  filter f (filter g l) = filter (fun x => g x && f x) l.
Proof.
  induction l as [|x l IH]; simpl; [reflexivity|].
  destruct (g x); simpl; [destruct (f x)|]; now rewrite IH.
Qed.

Lemma filter_all (A : Type) (l : list A) : filter (fun _ => true) l = l.
Proof. induction l as [|x l IH]; simpl; [reflexivity | now rewrite IH]. Qed.

Lemma differs_eqb (y x : string) :
  (if string_dec y x then false else true) = negb (y =? x).
Proof.
  destruct (string_dec y x) as [->|H].
  - now rewrite String.eqb_refl.
  - apply String.eqb_neq in H. now rewrite H.
Qed.

(** Inserting the elements of [l] into a Set that holds [acc] adds, in
    order, the first occurrences that [acc] does not hold yet. *)
Lemma fold_setAdd (l acc : list string) :
  fold_left setAdd l acc
  = (acc ++ filter (fun y => negb (memb y acc)) (distinct l))%list.
Proof.
  revert acc. induction l as [|x l IH]; intros acc; simpl.
  - now rewrite app_nil_r.
  - rewrite IH. unfold setAdd. fold (memb x acc).
    destruct (memb x acc) eqn:E; simpl.
    + f_equal. rewrite filter_filter. apply filter_ext. intros y.
      rewrite differs_eqb. destruct (String.eqb_spec y x) as [->|_]; simpl;
        [now rewrite E | reflexivity].
    + rewrite <- app_assoc. simpl. do 2 f_equal.
      rewrite filter_filter. apply filter_ext. intros y.
      unfold memb. rewrite existsb_app. simpl. rewrite differs_eqb.
      rewrite orb_false_r, negb_orb. apply andb_comm.
Qed.

Lemma setOf_distinct (l : list string) : setOf l = distinct l.
Proof. unfold setOf. rewrite fold_setAdd. simpl. apply filter_all. Qed.

Lemma distinct_In (l : list string) (x : string) :
  In x (distinct l) <-> In x l.
Proof.
  induction l as [|a l IH]; simpl; [tauto|].
  rewrite filter_In, IH, differs_eqb.
  destruct (String.eqb_spec x a) as [->|Hne]; simpl.
  - tauto.
  - split; [tauto|]. intros [H|H]; [now left; subst | now right].
Qed.

Lemma distinct_NoDup (l : list string) : NoDup (distinct l).
Proof.
  induction l as [|a l IH]; simpl; constructor.
  - rewrite filter_In. intros [_ H]. destruct (string_dec a a); congruence.
  - now apply NoDup_filter.
Qed.

(** C7. The narrative maps every recommendation type through the closed
    lookup, keeps the distinct phrases in first-seen order, joins the first
    three with ", ", appends ", and N other improvements" (N the number of
    distinct phrases minus three) exactly when there are more than three,
    and states the number of recommendations and of features in the fixed
    sentences. The four-type scenario with one feature and the empty
    scenario produce the texts the specification lists. *)
Theorem improvement_narrative_as_specified
  (recs : list Recommendation) (features : list string) :
  _generateImprovementDescription recs features
  = improvementNarrative recs features
  /\ (forall feature : string,
        let text :=
          _generateImprovementDescription
            [ mkRec (Str "design_improvement") Undefined Undefined;
              mkRec (Str "mobile_optimization") Undefined Undefined;
              mkRec (Str "seo_optimization") Undefined Undefined;
              mkRec (Str "performance_boost") Undefined Undefined ]
            [feature] in
        includes text "modern design, mobile optimization, SEO optimization"
        = true
        /\ includes text "and 1 other improvements" = true
        /\ includes text "Implemented 4 key improvements" = true
        /\ includes text "Features 1 modern web components" = true)
  /\ includes (_generateImprovementDescription [] features)
       "Implemented 0 key improvements" = true.
Proof.
  split; [|split].
  - unfold _generateImprovementDescription, improvementNarrative, slice0.
    rewrite setOf_distinct.
    rewrite (map_ext _ _ improvementType_phraseFor).
    set (seen := distinct _).
    destruct (le_lt_dec (List.length seen) 3) as [Hle|Hlt].
    + apply Nat.ltb_ge in Hle. rewrite Hle.
      now rewrite !append_assoc.
    + apply Nat.ltb_lt in Hlt. rewrite Hlt.
      now rewrite !append_assoc.
  - intros feature. cbv zeta. repeat split; vm_compute; reflexivity.
  - reflexivity.
Qed.

(** ** C9, C10: the prompt *)

Ltac find_slot :=
  repeat first [apply includes_here | apply includes_skip].









(** C10. At the generation interface an empty-string color scheme behaves
    as a null one: both are falsy, so the palette of the custom CSS is the
    catalog palette of the industry and never the fixed override palette,
    the prompt has an empty color-scheme clause, and the whole generation
    result is the one a null color scheme gives. *)
Theorem empty_color_scheme_behaves_as_null
  (env : Env) (analysis : AnalysisResult) (businessName style : JsStr)
  (includeBooking : bool) (businessInfo : option BusinessInfo)
  (recs : list Recommendation) (industry : JsStr) :
  _getBaseColors (Str "") industry = _getBaseColors Null industry
  /\ _getBaseColors (Str "") industry <> Own overridePalette
  /\ colorSchemeText (Str "") = ""
  /\ _createHomepagePrompt businessName businessInfo recs style
       includeBooking (Str "")
     = _createHomepagePrompt businessName businessInfo recs style
         includeBooking Null
  /\ _generateCustomCSS businessInfo style (Str "")
     = _generateCustomCSS businessInfo style Null
  /\ generateHomepage env analysis businessName style includeBooking (Str "")
     = generateHomepage env analysis businessName style includeBooking Null.
Proof.
  assert (Hsame : forall i, _getBaseColors (Str "") i = _getBaseColors Null i)
    by reflexivity.
  split; [apply Hsame|]. split.
  - rewrite Hsame.
    destruct (catalog_palette_cases industry) as [[name ->]|[key [p [Hin ->]]]].
    + discriminate.
    + intros [= Hp]. now apply (catalog_palettes_differ_from_override key p).
  - repeat split.
Qed.

End GeneratorProps.

(** * Properties of the screenshot service *)

Module ScreenshotProps.
Import Js Screenshot Lifecycle StringFacts.

(** ** C6: the document handed to the engine *)

Lemma startsWith_drop (p s : string) :
  startsWith p s = true -> s = p ++ drop (String.length p) s.
Proof.
  revert s. induction p as [|a p IH]; intros s; simpl.
  - now destruct s.
  - destruct s as [|b s]; [discriminate|].
    intros H. apply andb_prop in H as [Hab Hrest].
    apply Ascii.eqb_eq in Hab. subst b. f_equal. now apply IH.
Qed.

(** [splitFirst] cuts the text around an occurrence of the pattern. *)
Lemma splitFirst_sound (needle s pre post : string) :
  splitFirst needle s = Some (pre, post) -> s = pre ++ needle ++ post.
Proof.
  revert pre post. induction s as [|c s IH]; intros pre post; simpl.
  - destruct (startsWith needle "") eqn:E; [|discriminate].
    intros [= <- <-]. now apply startsWith_drop in E.
  - destruct (startsWith needle (String c s)) eqn:E.
    + intros [= <- <-]. now apply startsWith_drop in E.
    + destruct (splitFirst needle s) as [[pre0 post0]|]; [|discriminate].
      intros [= <- <-]. simpl. f_equal. now apply IH.
Qed.

(** The occurrence is the leftmost one. *)
Lemma splitFirst_leftmost (needle s pre post : string) :
  splitFirst needle s = Some (pre, post) ->
  forall pre' post', s = pre' ++ needle ++ post' ->
                     String.length pre <= String.length pre'.
Proof.
  revert pre post. induction s as [|c s IH]; intros pre post; simpl.
  - destruct (startsWith needle "") eqn:E; [|discriminate].
    intros [= <- <-] pre' post' _. apply Nat.le_0_l.
  - destruct (startsWith needle (String c s)) eqn:E.
    + intros [= <- <-] pre' post' _. apply Nat.le_0_l.
    + destruct (splitFirst needle s) as [[pre0 post0]|] eqn:E0;
        [|discriminate].
      intros [= <- <-] pre' post' Hs.
      destruct pre' as [|c' pre'']; simpl in Hs.
      * rewrite Hs, startsWith_append in E. discriminate.
      * injection Hs as _ Hs. simpl. apply le_n_S.
        now apply (IH pre0 post0 eq_refl pre'' post').
Qed.

Lemma includes_splitFirst (needle s : string) :
  includes s needle = true ->
  exists pre post, splitFirst needle s = Some (pre, post).
Proof.
  induction s as [|c s IH]; simpl.
  - rewrite orb_false_r. intros ->. now eexists _, _.
  - destruct (startsWith needle (String c s)); simpl.
    + intros _. now eexists _, _.
    + intros H. destruct (IH H) as [pre [post ->]]. now eexists _, _.
Qed.

(** A replacement text without patterns is inserted as it is. *)
Lemma getSubstitution_plain (matched preceding following template : string) :
  hasPattern template = false ->
  getSubstitution matched preceding following template = template.
Proof.
  induction template as [|a t IH]; simpl; [reflexivity|].
  intros H. apply orb_false_elim in H as [Hhead Htail].
  destruct (Ascii.eqb a "$") eqn:Ea; simpl in Hhead.
  - destruct t as [|c rest]; [reflexivity|].
    unfold isPatternChar in Hhead.
    repeat (apply orb_false_elim in Hhead as [Hhead ?]).
    repeat match goal with H : Ascii.eqb c _ = false |- _ => rewrite H; clear H end.
    f_equal. now apply IH.
  - f_equal. now apply IH.
Qed.

Lemma hasPattern_before_tag (css : string) :
  hasPattern css = false -> hasPattern (css ++ "</style></head>") = false.
Proof.
  induction css as [|a r IH]; [reflexivity|].
  cbn [hasPattern append]. intros H.
  apply orb_false_elim in H as [Hhead Htail].
  rewrite (IH Htail), orb_false_r.
  destruct (Ascii.eqb a "$"); [|reflexivity].
  destruct r; [reflexivity | exact Hhead].
Qed.

Lemma nonempty_truthy (css : string) : css <> "" -> negb (css =? "") = true.
Proof. intros H. apply String.eqb_neq in H. now rewrite H. Qed.

(** C6, as the code has it. For a non-empty css: a fragment (no doctype, no
    html tag) is wrapped in the generated document, whose head holds the
    style block with the css followed by the stylesheet link and whose
    body holds the fragment; a complete document that contains [</head>]
    is returned with the style block inserted immediately before its
    first [</head>] and nothing else changed, provided the css holds none
    of the replacement patterns of [String.prototype.replace]. *)
Theorem complete_html_shapes (html css : string) :
  css <> "" ->
  (looksComplete html = false ->
     _createCompleteHtml html css
     = documentHead ++ "<style>" ++ css ++ "</style>" ++ documentLink
       ++ html ++ documentTail)
  /\ (looksComplete html = true ->
      includes html "</head>" = true ->
      hasPattern css = false ->
      exists pre post,
        html = pre ++ "</head>" ++ post
        /\ (forall pre' post', html = pre' ++ "</head>" ++ post' ->
                               String.length pre <= String.length pre')
        /\ _createCompleteHtml html css
           = pre ++ "<style>" ++ css ++ "</style>" ++ "</head>" ++ post)
  /\ includes documentHead "<head>" = true
  /\ includes documentHead "</head>" = false
  /\ includes documentHead "<body>" = false
  /\ (exists link,
        documentLink = link ++ "</head>" ++ nl ++ "<body>" ++ nl ++ "    "
        /\ includes link "<link href=" = true
        /\ includes link "tailwind.min.css" = true
        /\ includes link "</head>" = false)
  /\ documentTail = nl ++ "</body>" ++ nl ++ "</html>".
Proof.
  intros Hcss. split; [|split].
  - intros Hfrag. unfold _createCompleteHtml, styleBlock.
    rewrite Hfrag, (nonempty_truthy css Hcss).
    now rewrite !append_assoc.
  - intros Hdoc Hhead Hplain. unfold _createCompleteHtml.
    rewrite Hdoc, (nonempty_truthy css Hcss), Hhead.
    destruct (includes_splitFirst _ _ Hhead) as [pre [post Hsplit]].
    exists pre, post. split; [now apply splitFirst_sound|].
    split; [now apply (splitFirst_leftmost _ _ _ _ Hsplit)|].
    unfold replace. rewrite Hsplit. unfold styleBlock.
    rewrite getSubstitution_plain.
    + now rewrite !append_assoc.
    + rewrite !append_assoc. apply (hasPattern_before_tag css Hplain).
  - repeat split; try reflexivity.
    exists (nl ++ "    <link href=" ++ dq
            ++ "https://cdn.jsdelivr.net/npm/tailwindcss@2.2.19/dist/tailwind.min.css"
            ++ dq ++ " rel=" ++ dq ++ "stylesheet" ++ dq ++ ">" ++ nl).
    repeat split; reflexivity.
Qed.

Lemma complete_html_shapes_witness :
  "body{color:red}" <> ""
  /\ _createCompleteHtml "<p>Hello</p>" "body{color:red}"
     = documentHead ++ "<style>body{color:red}</style>" ++ documentLink
       ++ "<p>Hello</p>" ++ documentTail.
Proof.
  split; [discriminate|].
  exact (proj1 (complete_html_shapes "<p>Hello</p>" "body{color:red}"
                  ltac:(discriminate)) eq_refl).
Defined.

(** C6, as stated, fails for a fragment with empty css: the generated
    document has no style block at all. *)
Lemma fragment_without_css_has_no_style_block :
  looksComplete "<p>Hello</p>" = false
  /\ includes (_createCompleteHtml "<p>Hello</p>" "") "<style>" = false.
Proof. split; reflexivity. Qed.

(** A css that holds a replacement pattern is not inserted as it is: [$&]
    is expanded to the matched [</head>]. *)
Remark pattern_in_css_is_expanded :
  _createCompleteHtml "<html><head></head><body></body></html>"
    "p::after{content:'$&'}"
  = "<html><head><style>p::after{content:'</head>'}</style></head><body></body></html>".
Proof. reflexivity. Qed.

(** ** C3: the page of a capture *)

Lemma filter_fresh (n : nat) (l : list nat) :
  Forall (fun q => q < n) l -> filter (fun q => negb (Nat.eqb q n)) l = l.
Proof.
  induction 1 as [|q l Hq _ IH]; simpl; [reflexivity|].
  destruct (Nat.eqb_spec q n) as [->|_]; [lia|]. simpl. now rewrite IH.
Qed.

(** What one capture does to the world when the service is ready: the
    service object is left as it was, and the calls issued to the engine
    are one [newPage] and, when it gave a page, the calls on that page
    ending with its close. The open pages are the ones that were open
    before when no page was given or the close succeeded. *)
Lemma capture_effect (o : Outcomes) (html css : string) (options : Options)
  (w : World) (b : Browser) :
  ready (this w) b -> wellFormed (engine w) ->
  exists r w' trace,
    generateScreenshot o html css options w = (r, w')
    /\ this w' = this w
    /\ events (engine w') = (events (engine w) ++ trace)%list
    /\ (newPageOk o = false \/ closeOk o = true ->
        openPages (engine w') = openPages (engine w))
    /\ wellFormed (engine w')
    /\ newPageCalls trace = 1
    /\ opened trace = (if newPageOk o then [nextPage (engine w)] else [])
    /\ closeCalls trace = opened trace
    /\ (newPageOk o = true ->
        last trace (Launch None) = PageClose (nextPage (engine w)))
    /\ (newPageOk o = false -> r = Raise (EngineFailure "newPage"))
    /\ (newPageOk o = true -> closeOk o = false ->
        r = Raise (EngineFailure "close"))
    /\ ((exists image, r = Return image) <-> allOk o = true).
Proof.
  destruct w as [[br ini] [pages next evs]]. intros [Hb Hi] Hwf.
  simpl in Hb, Hi. unfold wellFormed in Hwf. simpl in Hwf. subst br ini.
  assert (Hclose : filter (fun q => negb (Nat.eqb q next)) (next :: pages)
                   = pages).
  { simpl. rewrite Nat.eqb_refl. simpl. now apply filter_fresh. }
  assert (Hwf' : Forall (fun q => q < S next) pages).
  { eapply Forall_impl; [|exact Hwf]. simpl. intros q Hq. lia. }
  destruct o as [np sv sc wt sh cl].
  destruct np, sv, sc, wt, sh as [image|], cl;
    (cbn -[_createCompleteHtml String.eqb filter]; rewrite ?Hclose;
     eexists _, _, _; split; [reflexivity|];
     cbn -[_createCompleteHtml String.eqb filter];
     split; [reflexivity|];
     split; [rewrite <- ?app_assoc; reflexivity|];
     split; [intros [H|H]; try discriminate H; reflexivity|];
     split; [first [assumption
                   | apply Forall_cons; [apply Nat.lt_succ_diag_r | assumption]]|];
     repeat split; try reflexivity; try discriminate;
     try (intros; congruence);
     try (intros [image' H]; discriminate H);
     try (intros _; eexists; reflexivity)).
Qed.

(** C3, as the code has it. Every capture made in the ready state issues
    exactly one [newPage] call. When the engine gives a page, that page is
    the only one the call opens, and the call asks for its close exactly
    once, the close being the last call issued to the engine before the
    capture returns or rethrows, on every exit path (screenshot taken,
    content-load timeout, or any failing engine call). When that close
    succeeds, the pages open after the call are the ones that were open
    before it; when it fails, the capture throws the error of the close.
    When the engine gives no page, none is opened, no close is asked for,
    the open pages are the ones that were open before, and the capture
    rethrows. The service object is unchanged, and the capture returns an
    image exactly when every engine call succeeded. *)
Theorem capture_closes_its_page (o : Outcomes) (html css : string)
  (options : Options) (w : World) (b : Browser) :
  ready (this w) b -> wellFormed (engine w) ->
  let result := generateScreenshot o html css options w in
  exists trace,
    events (engine (snd result)) = (events (engine w) ++ trace)%list
    /\ newPageCalls trace = 1
    /\ (newPageOk o = true ->
        opened trace = [nextPage (engine w)]
        /\ closeCalls trace = [nextPage (engine w)]
        /\ last trace (Launch None) = PageClose (nextPage (engine w))
        /\ (closeOk o = true ->
            openPages (engine (snd result)) = openPages (engine w))
        /\ (closeOk o = false ->
            fst result = Raise (EngineFailure "close")))
    /\ (newPageOk o = false ->
        opened trace = [] /\ closeCalls trace = []
        /\ openPages (engine (snd result)) = openPages (engine w)
        /\ fst result = Raise (EngineFailure "newPage"))
    /\ this (snd result) = this w
    /\ ((exists image, fst result = Return image) <-> allOk o = true).
Proof.
  intros Hready Hwf result.
  destruct (capture_effect o html css options w b Hready Hwf)
    as (r & w' & trace & Hrun & Hthis & Hev & Hopen & _ & Hcalls & Hopened
        & Hclosed & Hlast & Hfail & Hcl & Hret).
  subst result. rewrite Hrun. simpl. exists trace.
  split; [exact Hev|]. split; [exact Hcalls|]. split; [|split; [|split]].
  - intros Hnp. rewrite Hclosed, Hopened, Hnp.
    split; [reflexivity|]. split; [reflexivity|]. split; [now apply Hlast|].
    split; [intros Hok; apply Hopen; now right | now apply Hcl].
  - intros Hnp. rewrite Hclosed, Hopened, Hnp.
    split; [reflexivity|]. split; [reflexivity|].
    split; [apply Hopen; now left | now apply Hfail].
  - exact Hthis.
  - exact Hret.
Qed.

Lemma capture_closes_its_page_witness :
  let w := mkWorld (mkService (Some 7) true) (mkEngine [] 0 []) in
  let o := mkOutcomes true true TimedOut true None true in
  ready (this w) 7 /\ wellFormed (engine w)
  /\ exists trace,
      events (engine (snd (generateScreenshot o "<p>Hello</p>" "" noOptions w)))
      = trace
      /\ closeCalls trace = [0]
      /\ openPages
           (engine (snd (generateScreenshot o "<p>Hello</p>" "" noOptions w)))
         = [].
Proof.
  cbv zeta. split; [split; reflexivity|]. split; [constructor|].
  destruct (capture_closes_its_page
              (mkOutcomes true true TimedOut true None true)
              "<p>Hello</p>" "" noOptions
              (mkWorld (mkService (Some 7) true) (mkEngine [] 0 []))
              7 (conj eq_refl eq_refl) (Forall_nil _))
    as (trace & Hev & _ & Hok & _).
  exists trace. split; [exact Hev|].
  destruct (Hok eq_refl) as (_ & Hcalls & _ & Hopen & _).
  split; [exact Hcalls | exact (Hopen eq_refl)].
Defined.

(** C3, as stated, fails when the engine gives no page: the capture is made
    in the ready state, and no page is opened at all. *)
Lemma capture_may_open_no_page :
  let w := mkWorld (mkService (Some 7) true) (mkEngine [] 0 []) in
  let o := mkOutcomes false true Loaded true (Some []) true in
  let result := generateScreenshot o "<p>Hello</p>" "" noOptions w in
  truthyReady (isReady (this w)) = true
  /\ fst result = Raise (EngineFailure "newPage")
  /\ events (engine (snd result)) = [NewPage 7 None]
  /\ List.length (opened (events (engine (snd result)))) = 0.
Proof. cbv zeta. repeat split. Qed.

(** ** C4: the life cycle *)

Lemma initialize_effect (launchResult : option Browser) (w : World) :
  fst (initialize launchResult w) = Return tt
  /\ truthyReady (isReady (this (snd (initialize launchResult w))))
     = match launchResult with Some _ => true | None => false end.
Proof. destruct w as [[br ini] e], launchResult; split; reflexivity. Qed.

Lemma cleanup_effect (ok : bool) (w : World) :
  browser (this w) = None \/ ok = true ->
  fst (cleanup ok w) = Return tt
  /\ browser (this (snd (cleanup ok w))) = None
  /\ truthyReady (isReady (this (snd (cleanup ok w)))) = false.
Proof.
  destruct w as [[[b|] ini] e]; simpl.
  - intros [H| ->]; [discriminate|]. repeat split.
  - intros _. repeat split. now destruct ini.
Qed.

Lemma cleanup_without_browser (ok : bool) (w : World) :
  browser (this w) = None -> cleanup ok w = (Return tt, w).
Proof. destruct w as [[[b|] ini] e]; simpl; [discriminate | reflexivity]. Qed.

(** A [cleanup] whose browser close fails throws and leaves the service as it
    was. *)
Remark cleanup_propagates_close_failure (b : Browser) (ini : bool) (e : Engine) :
  let w := mkWorld (mkService (Some b) ini) e in
  fst (cleanup false w) = Raise (EngineFailure "browser.close")
  /\ this (snd (cleanup false w)) = this w.
Proof. split; reflexivity. Qed.

Lemma cleanup_cases (ok : bool) (w : World) :
  (fst (cleanup ok w) = Return tt
   /\ truthyReady (isReady (this (snd (cleanup ok w)))) = false)
  \/ (fst (cleanup ok w) = Raise (EngineFailure "browser.close")
      /\ ok = false /\ this (snd (cleanup ok w)) = this w).
Proof.
  destruct w as [[[b|] ini] e], ok; cbn;
    first [ left; split; [reflexivity | now destruct ini]
          | right; repeat split ].
Qed.

(** A capture leaves the service object as it was; it fails as not
    initialized exactly when the service is not ready, without reaching the
    engine, and in the ready state it returns an image exactly when the
    engine answers all its calls. *)
Lemma capture_service (o : Outcomes) (html css : string) (options : Options)
  (w : World) :
  let run := generateScreenshot o html css options w in
  this (snd run) = this w
  /\ (truthyReady (isReady (this w)) = true ->
      ((exists image, fst run = Return image) <-> allOk o = true)
      /\ fst run <> Raise NotInitialized)
  /\ (truthyReady (isReady (this w)) = false -> run = (Raise NotInitialized, w)).
Proof.
  destruct w as [[[b|] [|]] [pages next evs]];
    try (cbn; repeat split; discriminate).
  destruct o as [np sv sc wt sh cl].
  unfold generateScreenshot. cbn [bind gets this isInitialized browser].
  generalize (_createCompleteHtml html css) as doc.
  generalize (orDefault 1200 (width options)) as wd.
  generalize (orDefault 800 (height options)) as hd.
  generalize (orDefault 1 (deviceScaleFactor options)) as dsf.
  generalize (orDefault true (fullPage options)) as fp.
  generalize (orDefault 90 (quality options)) as ql.
  generalize (orDefault "png" (format options)) as fmt.
  intros fmt ql fp dsf hd wd doc.
  generalize (if fmt =? "jpeg" then Some ql else None) as qo. intros qo.
  destruct np, sv, sc, wt, sh as [image|], cl;
    cbv -[filter app];
    (split; [reflexivity|]); (split; [|discriminate]); intros _;
    (split; [|discriminate]);
    (split; [intros [image' H]; try discriminate H; reflexivity
            | intros H; try discriminate H; eexists; reflexivity]).
Qed.

(** Every sequence of calls follows the life cycle, from every state of
    the service. *)
Lemma calls_follow_lifeCycle (cs : list Call) (w : World) :
  lifeCycle (truthyReady (isReady (this w))) cs (calls cs w).
Proof.
  revert w. induction cs as [|c cs IH]; intros w; [exact I|].
  destruct c as [launchResult|ok| |o html css options];
    cbn [calls call].
  - destruct (initialize_effect launchResult w) as [Hret Hready].
    destruct (initialize launchResult w) as [r w'] eqn:E.
    cbn [fst snd] in Hret, Hready. subst r. cbn [observe lifeCycle].
    split; [reflexivity|]. rewrite <- Hready. apply IH.
  - destruct (cleanup_cases ok w) as [[Hret Hready]|(Hret & Hok & Hthis)];
      destruct (cleanup ok w) as [r w'] eqn:E;
      cbn [fst snd] in *; subst r; cbn [observe lifeCycle].
    + left. split; [reflexivity|]. rewrite <- Hready. apply IH.
    + right. split; [reflexivity|]. split; [exact Hok|].
      rewrite <- Hthis. apply IH.
  - cbn [lifeCycle]. split; [now eexists|]. apply IH.
  - destruct (capture_service o html css options w) as (Hthis & Hon & Hoff).
    destruct (generateScreenshot o html css options w) as [r w'] eqn:E.
    cbn [fst snd] in Hthis, Hon, Hoff. cbn [lifeCycle].
    split; [|rewrite <- Hthis; apply IH].
    destruct (truthyReady (isReady (this w))).
    + destruct (Hon eq_refl) as [Hiff Hne]. split.
      * rewrite <- Hiff. destruct r as [image|err]; cbn [observe].
        -- split; intros _; now eexists.
        -- split; intros [image H]; discriminate H.
      * destruct r as [image|err]; cbn [observe]; [discriminate|].
        intros [= ->]. now apply Hne.
    + now injection (Hoff eq_refl) as -> _.
Qed.

(** C4, as the code has it. The service starts uninitialized and not
    ready, and every sequence of [initialize], [cleanup], readiness checks
    and captures follows the life cycle, from the new service and from
    every other state. [initialize] always returns normally: a failed
    launch leaves the service not ready, a successful one leaves it ready.
    [cleanup] returns normally exactly when there is no browser to close
    or the engine closes it; the service is then not ready and a further
    [cleanup] changes nothing. Otherwise [cleanup] throws the error of the
    close and leaves the service object as it was. [cleanup] on a new
    service, and on one whose first launch failed, does nothing and
    returns normally. *)
Theorem lifecycle_state_machine (w : World) (launchResult : option Browser)
  (closeOk : bool) (cs : list Call) (e : Engine) :
  truthyReady (isReady constructor) = false
  /\ lifeCycle false cs (calls cs (mkWorld constructor e))
  /\ lifeCycle (truthyReady (isReady (this w))) cs (calls cs w)
  /\ fst (initialize launchResult w) = Return tt
  /\ (truthyReady (isReady (this (snd (initialize launchResult w))))
       = match launchResult with Some _ => true | None => false end)
  /\ (fst (cleanup closeOk w) = Return tt
      <-> browser (this w) = None \/ closeOk = true)
  /\ (fst (cleanup closeOk w) = Return tt ->
      truthyReady (isReady (this (snd (cleanup closeOk w)))) = false
      /\ forall again : bool,
           cleanup again (snd (cleanup closeOk w))
           = (Return tt, snd (cleanup closeOk w)))
  /\ (fst (cleanup closeOk w) <> Return tt ->
      fst (cleanup closeOk w) = Raise (EngineFailure "browser.close")
      /\ this (snd (cleanup closeOk w)) = this w)
  /\ (forall (ok : bool) (e' : Engine),
        cleanup ok (mkWorld constructor e')
        = (Return tt, mkWorld constructor e'))
  /\ (forall (ok : bool) (e' : Engine),
        let failed := snd (initialize None (mkWorld constructor e')) in
        fst (cleanup ok failed) = Return tt
        /\ this (snd (cleanup ok failed)) = this failed).
Proof.
  assert (Hiff : fst (cleanup closeOk w) = Return tt
                 <-> browser (this w) = None \/ closeOk = true).
  { split; [|apply cleanup_effect].
    destruct w as [[[b|] ini] e0], closeOk; cbn; auto; discriminate. }
  split; [reflexivity|].
  split; [apply (calls_follow_lifeCycle cs (mkWorld constructor e))|].
  split; [apply calls_follow_lifeCycle|].
  split; [apply initialize_effect|]. split; [apply initialize_effect|].
  split; [exact Hiff|]. split; [|split; [|split]].
  - intros Hret. apply Hiff in Hret.
    destruct (cleanup_effect closeOk w Hret) as (_ & Hnone & Hready).
    split; [exact Hready|]. intros again. now apply cleanup_without_browser.
  - intros Hthrow. destruct w as [[[b|] ini] e0], closeOk;
      try (exfalso; apply Hthrow; reflexivity). split; reflexivity.
  - reflexivity.
  - intros ok e'. split; reflexivity.
Qed.

(** C4, as stated, fails when the engine fails to close the browser:
    [cleanup] throws, the service is ready after it, and a capture made
    then returns an image. *)
Lemma cleanup_may_leave_the_service_ready :
  let w := snd (initialize (Some 7) (mkWorld constructor (mkEngine [] 0 []))) in
  let o := mkOutcomes true true Loaded true (Some [137; 80; 78; 71]) true in
  let cleaned := cleanup false w in
  fst cleaned = Raise (EngineFailure "browser.close")
  /\ truthyReady (isReady (this (snd cleaned))) = true
  /\ fst (generateScreenshot o "<p>Hello</p>" "" noOptions (snd cleaned))
     = Return [137; 80; 78; 71].
Proof. cbv zeta. repeat split. Qed.

(** Nor do all captures fail after a [cleanup] that completes: the service
    can be initialized again, and captures then succeed. *)
Remark initialize_after_cleanup_restores_captures :
  let w := snd (initialize (Some 7) (mkWorld constructor (mkEngine [] 0 []))) in
  let o := mkOutcomes true true Loaded true (Some [137; 80; 78; 71]) true in
  calls [ CallCleanup true; CallCapture o "<p>Hello</p>" "" noOptions;
          CallInitialize (Some 8); CallIsReady;
          CallCapture o "<p>Hello</p>" "" noOptions ] w
  = [ Done; Threw NotInitialized; Done; Ready (ReadyBrowser 8);
      Image [137; 80; 78; 71] ].
Proof. reflexivity. Qed.

(** ** C5: the responsive captures *)

Lemma newPageCalls_app (t1 t2 : list Event) :
  newPageCalls (t1 ++ t2) = newPageCalls t1 + newPageCalls t2.
Proof.
  induction t1 as [|ev t1 IH]; simpl; [reflexivity|].
  destruct ev; simpl; now rewrite IH.
Qed.

Lemma opened_app (t1 t2 : list Event) :
  opened (t1 ++ t2) = (opened t1 ++ opened t2)%list.
Proof.
  induction t1 as [|ev t1 IH]; simpl; [reflexivity|].
  destruct ev as [| |b [p|]| | | | |]; simpl; now rewrite IH.
Qed.

Lemma closeCalls_app (t1 t2 : list Event) :
  closeCalls (t1 ++ t2) = (closeCalls t1 ++ closeCalls t2)%list.
Proof.
  induction t1 as [|ev t1 IH]; simpl; [reflexivity|].
  destruct ev; simpl; now rewrite IH.
Qed.

Lemma dataUrl_world (toBase64 : Buffer -> string) (o : Outcomes)
  (html css : string) (options : Options) (w : World) :
  snd (generateScreenshotDataUrl toBase64 o html css options w)
  = snd (generateScreenshot o html css options w).
Proof.
  unfold generateScreenshotDataUrl, bind, ret.
  now destruct (generateScreenshot o html css options w) as [[image|e] w'].
Qed.

(** C5. For every html and css, the responsive capture runs the data-URL
    capture for the desktop, tablet and mobile presets in this order, each
    in the world the previous one left, and always returns a record with
    exactly the keys desktop, tablet, mobile: the entry of a preset is the
    data URL its capture returned, or null when its capture threw, and a
    capture that throws stops neither the later captures nor the operation.
    If the tablet capture throws and the other two succeed, desktop and
    mobile are non-null and tablet is null. In the ready state three pages
    are requested from the engine, a close is asked for every page the
    engine gave, and none stays open when every page that was given is
    closed successfully. *)
Theorem responsive_isolates_failures (toBase64 : Buffer -> string)
  (outcomes : string -> Outcomes) (html css : string) (w : World) :
  let capture device viewport :=
    generateScreenshotDataUrl toBase64 (outcomes device) html css viewport in
  let desktop :=
    capture "desktop"
      (mkOptions (Some 1200) (Some 800) (Some 1) (Some false) None None) w in
  let tablet :=
    capture "tablet"
      (mkOptions (Some 768) (Some 1024) (Some 2) (Some false) None None)
      (snd desktop) in
  let mobile :=
    capture "mobile"
      (mkOptions (Some 375) (Some 667) (Some 2) (Some false) None None)
      (snd tablet) in
  let screenshots :=
    [ ("desktop", entryOf (fst desktop)); ("tablet", entryOf (fst tablet));
      ("mobile", entryOf (fst mobile)) ] in
  generateResponsiveScreenshots toBase64 outcomes html css w
  = (Return screenshots, snd mobile)
  /\ map fst screenshots = ["desktop"; "tablet"; "mobile"]
  /\ (forall (e : Error) (d m : string),
        fst tablet = Raise e -> fst desktop = Return d ->
        fst mobile = Return m ->
        screenshots = [("desktop", Some d); ("tablet", None); ("mobile", Some m)])
  /\ (forall b : Browser,
        ready (this w) b -> wellFormed (engine w) ->
        exists trace,
          events (engine (snd mobile)) = (events (engine w) ++ trace)%list
          /\ newPageCalls trace = 3
          /\ closeCalls trace = opened trace
          /\ ((forall device, In device (map fst viewports) ->
                 newPageOk (outcomes device) = false
                 \/ closeOk (outcomes device) = true) ->
              openPages (engine (snd mobile)) = openPages (engine w))).
Proof.
  intros capture desktop tablet mobile screenshots.
  split; [|split; [reflexivity|split]].
  - subst screenshots mobile tablet desktop capture.
    unfold generateResponsiveScreenshots, viewports.
    cbn [forEachViewport]. unfold bind at 1. unfold tryCatch at 1.
    unfold bind at 1. unfold windowed at 1. cbn [width height deviceScaleFactor format quality].
    destruct (generateScreenshotDataUrl toBase64 (outcomes "desktop") html css _ w)
      as [[d|e1] w1]; unfold ret at 1;
      cbn [setProperty fst snd entryOf];
      unfold bind at 1; unfold tryCatch at 1; unfold bind at 1;
      unfold windowed at 1; cbn [width height deviceScaleFactor format quality];
      destruct (generateScreenshotDataUrl toBase64 (outcomes "tablet") html css _ w1)
        as [[t|e2] w2]; unfold ret at 1;
      cbn -[generateScreenshotDataUrl];
      unfold bind at 1; unfold tryCatch at 1; unfold bind at 1;
      unfold windowed at 1; cbn [width height deviceScaleFactor format quality];
      destruct (generateScreenshotDataUrl toBase64 (outcomes "mobile") html css _ w2)
        as [[m|e3] w3]; reflexivity.
  - intros e d m Ht Hd Hm. subst screenshots. now rewrite Ht, Hd, Hm.
  - intros b Hready Hwf. subst mobile tablet desktop capture. cbv beta.
    rewrite !dataUrl_world.
    destruct (capture_effect (outcomes "desktop") html css
                (mkOptions (Some 1200) (Some 800) (Some 1) (Some false) None None)
                w b Hready Hwf)
      as (r1 & w1 & t1 & Hrun1 & Hthis1 & Hev1 & Hopen1 & Hwf1 & Hn1 & _
          & Hc1 & _).
    rewrite Hrun1. cbn [snd].
    rewrite <- Hthis1 in Hready.
    destruct (capture_effect (outcomes "tablet") html css
                (mkOptions (Some 768) (Some 1024) (Some 2) (Some false) None None)
                w1 b Hready Hwf1)
      as (r2 & w2 & t2 & Hrun2 & Hthis2 & Hev2 & Hopen2 & Hwf2 & Hn2 & _
          & Hc2 & _).
    rewrite Hrun2. cbn [snd].
    rewrite <- Hthis2 in Hready.
    destruct (capture_effect (outcomes "mobile") html css
                (mkOptions (Some 375) (Some 667) (Some 2) (Some false) None None)
                w2 b Hready Hwf2)
      as (r3 & w3 & t3 & Hrun3 & Hthis3 & Hev3 & Hopen3 & Hwf3 & Hn3 & _
          & Hc3 & _).
    rewrite Hrun3. cbn [snd].
    exists (t1 ++ t2 ++ t3)%list. split; [|split; [|split]].
    + rewrite Hev3, Hev2, Hev1. now rewrite <- !app_assoc.
    + rewrite !newPageCalls_app, Hn1, Hn2, Hn3. reflexivity.
    + rewrite !closeCalls_app, !opened_app. congruence.
    + intros Hok.
      rewrite (Hopen3 (Hok "mobile" ltac:(cbn; tauto))),
        (Hopen2 (Hok "tablet" ltac:(cbn; tauto))).
      exact (Hopen1 (Hok "desktop" ltac:(cbn; tauto))).
Qed.

Lemma responsive_isolates_failures_witness :
  let toBase64 := fun _ : Buffer => "iVBORw0KGgo=" in
  let outcomes := fun device : string =>
    if device =? "tablet" then mkOutcomes true true TimedOut true None true
    else mkOutcomes true true Loaded true (Some [137; 80; 78; 71]) true in
  let w := mkWorld (mkService (Some 7) true) (mkEngine [] 0 [Launch (Some 7)]) in
  fst (generateResponsiveScreenshots toBase64 outcomes "<p>Hello</p>"
         "body{color:red}" w)
  = Return [ ("desktop", Some "data:image/png;base64,iVBORw0KGgo=");
             ("tablet", None);
             ("mobile", Some "data:image/png;base64,iVBORw0KGgo=") ].
Proof.
  cbv zeta.
  rewrite (proj1 (responsive_isolates_failures (fun _ => "iVBORw0KGgo=")
                    (fun device : string =>
                       if device =? "tablet"
                       then mkOutcomes true true TimedOut true None true
                       else mkOutcomes true true Loaded true
                              (Some [137; 80; 78; 71]) true)
                    "<p>Hello</p>" "body{color:red}"
                    (mkWorld (mkService (Some 7) true)
                       (mkEngine [] 0 [Launch (Some 7)])))).
  reflexivity.
Defined.

End ScreenshotProps.

(** * Further properties of the generator *)

Module GenerationProps.
Import Js Generator TextEnds Pipeline StringFacts.

(** ** White space at the ends of the generated texts *)

Ltac space_cases :=
  cbn [afterSpace append hasPlain];
  repeat match goal with
         | |- context [if ?x then _ else _] => destruct x eqn:?
         end.

Lemma length_append (s t : string) :
  String.length (s ++ t) = String.length s + String.length t.
Proof. induction s as [|c s IH]; cbn; [reflexivity | now rewrite IH]. Qed.

(** A white-space character at the start of a text is the one that is
    removed first. *)
Lemma afterSpace_char (w q : string) :
  whiteSpaceChar w -> afterSpace (w ++ q) = Some q.
Proof.
  unfold whiteSpaceChar.
  destruct w as [|a [|b [|c w]]]; space_cases; try discriminate;
    intros H; try (injection H as ->); reflexivity.
Qed.

Lemma afterSpace_append (s r q : string) :
  afterSpace s = Some r -> afterSpace (s ++ q) = Some (r ++ q).
Proof.
  destruct s as [|a [|b [|c s]]]; space_cases; try discriminate;
    now intros [= <-].
Qed.

Lemma afterSpace_shorter (s r : string) :
  afterSpace s = Some r -> String.length r < String.length s.
Proof.
  destruct s as [|a [|b [|c s]]]; space_cases; try discriminate;
    intros [= <-]; cbn; lia.
Qed.

Lemma trimStart_step (s : string) :
  trimStart s = match afterSpace s with
                | Some r => trimStart r
                | None => s
                end.
Proof.
  destruct s as [|a r1]; [reflexivity|]. cbn [trimStart afterSpace].
  destruct (isSpace a); [reflexivity|].
  destruct r1 as [|b r2]; [reflexivity|].
  destruct (isSpace2 a b); [reflexivity|].
  destruct r2 as [|c r3]; [reflexivity|].
  destruct (isSpace3 a b c); reflexivity.
Qed.

(** Induction on a text along the removal of its leading white space. *)
Lemma leading_space_ind (P : string -> Prop) :
  (forall s, afterSpace s = None -> P s) ->
  (forall s r, afterSpace s = Some r -> P r -> P s) ->
  forall s, P s.
Proof.
  intros Hnone Hsome s.
  remember (String.length s) as n eqn:Hn. revert s Hn.
  induction n as [n IH] using lt_wf_ind. intros s ->.
  destruct (afterSpace s) as [r|] eqn:E; [|now apply Hnone].
  apply (Hsome s r E). apply (IH (String.length r)); [|reflexivity].
  now apply afterSpace_shorter.
Qed.

Lemma trimStart_clean (s : string) : afterSpace (trimStart s) = None.
Proof.
  induction s as [s E | s r E IH] using leading_space_ind;
    rewrite trimStart_step, E; assumption.
Qed.

Lemma onlySpace_char (w q : string) :
  whiteSpaceChar w -> onlySpace (w ++ q) = onlySpace q.
Proof.
  intros Hw. unfold onlySpace.
  now rewrite (trimStart_step (w ++ q)), (afterSpace_char w q Hw).
Qed.

(** What [trimEnd] removes is white space. *)
Lemma trimEnd_split (s : string) :
  exists q, s = trimEnd s ++ q /\ onlySpace q = true.
Proof.
  induction s as [|c s [q [Hs Hq]]]; [now exists ""|].
  cbn [trimEnd]. destruct (onlySpace (String c s)) eqn:E.
  - now exists (String c s).
  - exists q. split; [cbn; now f_equal | exact Hq].
Qed.

(** [trimEnd] cuts at the first place from which on there is white space
    only. *)
Lemma trimEnd_cut (a b : string) :
  onlySpace b = true -> String.length (trimEnd (a ++ b)) <= String.length a.
Proof.
  intros Hb. induction a as [|c a IH].
  - destruct b as [|c b]; [apply Nat.le_refl|].
    cbn [append trimEnd]. rewrite Hb. apply Nat.le_refl.
  - cbn [append trimEnd]. destruct (onlySpace (String c (a ++ b))); cbn; lia.
Qed.

Lemma whiteSpaceChar_nonempty (w : string) :
  whiteSpaceChar w -> 0 < String.length w.
Proof. destruct w; [discriminate | cbn; lia]. Qed.

Lemma trimEnd_clean (s front w : string) :
  whiteSpaceChar w -> trimEnd s <> front ++ w.
Proof.
  intros Hw Heq. destruct (trimEnd_split s) as [q [Hs Hq]].
  assert (Hcut := trimEnd_cut front (w ++ q)).
  rewrite (onlySpace_char w q Hw) in Hcut. specialize (Hcut Hq).
  rewrite Heq, append_assoc in Hs. rewrite <- Hs, Heq, length_append in Hcut.
  apply whiteSpaceChar_nonempty in Hw. lia.
Qed.

Lemma trim_trimmed (s : string) : trimmed (trim s).
Proof.
  split.
  - intros w rest Hw Heq. unfold trim in Heq.
    destruct (trimEnd_split (trimStart s)) as [q [Hs _]].
    assert (H := trimStart_clean s).
    rewrite Hs, Heq, append_assoc, (afterSpace_char w _ Hw) in H.
    discriminate.
  - intros front w Hw. apply trimEnd_clean, Hw.
Qed.

Lemma afterSpace_split (s r : string) :
  afterSpace s = Some r -> exists w, whiteSpaceChar w /\ s = w ++ r.
Proof.
  unfold whiteSpaceChar.
  destruct s as [|a [|b [|c s]]]; space_cases; try discriminate;
    intros [= <-];
    first [ exists (String a ""); cbn [afterSpace append];
            repeat match goal with H : _ = _ |- _ => rewrite H end;
            split; reflexivity
          | exists (String a (String b "")); cbn [afterSpace append];
            repeat match goal with H : _ = _ |- _ => rewrite H end;
            split; reflexivity
          | exists (String a (String b (String c ""))); cbn [afterSpace append];
            repeat match goal with H : _ = _ |- _ => rewrite H end;
            split; reflexivity ].
Qed.

(** What [trimStart] and [trimEnd] remove is made of white-space
    characters. *)
Lemma trimStart_split (s : string) :
  exists front, s = front ++ trimStart s /\ whiteSpace front.
Proof.
  induction s as [s E | s r E [front [Hr Hfront]]] using leading_space_ind;
    rewrite trimStart_step, E.
  - exists "". split; [reflexivity | constructor].
  - destruct (afterSpace_split s r E) as [w [Hw ->]].
    exists (w ++ front). split.
    + rewrite append_assoc. now f_equal.
    + now constructor.
Qed.

Lemma onlySpace_whiteSpace (s : string) : onlySpace s = true -> whiteSpace s.
Proof.
  unfold onlySpace. intros H.
  destruct (trimStart_split s) as [front [Hs Hfront]].
  destruct (trimStart s); [|discriminate].
  assert (Hnil : forall t, t ++ "" = t)
    by (induction t as [|c t IH]; cbn; [reflexivity | now rewrite IH]).
  rewrite Hs, Hnil. exact Hfront.
Qed.

Lemma trim_split (s : string) :
  exists front back,
    s = front ++ trim s ++ back /\ whiteSpace front /\ whiteSpace back.
Proof.
  destruct (trimStart_split s) as [front [Hs Hfront]].
  destruct (trimEnd_split (trimStart s)) as [back [Hk Hback]].
  exists front, back. unfold trim.
  split; [now rewrite <- Hk|].
  split; [exact Hfront | now apply onlySpace_whiteSpace].
Qed.

(** White space holds no plain byte. *)
Lemma isSpace2_high (a b : ascii) :
  isSpace2 a b = true -> plain a = false /\ plain b = false.
Proof.
  unfold isSpace2, plain. intros H. apply andb_prop in H as [Ha Hb].
  apply Nat.eqb_eq in Ha, Hb. rewrite Ha, Hb.
  split; apply andb_false_r.
Qed.

Lemma high_not_plain (c : ascii) :
  128 <= nat_of_ascii c -> plain c = false.
Proof.
  intros H. unfold plain. apply Nat.ltb_ge in H. rewrite H.
  apply andb_false_r.
Qed.

Lemma isSpace3_high (a b c : ascii) :
  isSpace3 a b c = true ->
  plain a = false /\ plain b = false /\ plain c = false.
Proof.
  unfold isSpace3. cbv zeta. intros H.
  assert (Hall : 128 <= nat_of_ascii a /\ 128 <= nat_of_ascii b
                 /\ 128 <= nat_of_ascii c).
  { repeat match goal with
           | H : (_ || _)%bool = true |- _ => apply orb_prop in H as [H|H]
           | H : (_ && _)%bool = true |- _ =>
               let H1 := fresh in apply andb_prop in H as [H H1]
           | H : Nat.eqb _ _ = true |- _ => apply Nat.eqb_eq in H
           | H : Nat.leb _ _ = true |- _ => apply Nat.leb_le in H
           end; lia. }
  destruct Hall as (Ha & Hb & Hc).
  repeat split; now apply high_not_plain.
Qed.

Lemma isSpace_not_plain (a : ascii) : isSpace a = true -> plain a = false.
Proof. unfold plain. now intros ->. Qed.

Lemma afterSpace_plain (s r : string) :
  afterSpace s = Some r -> hasPlain s = hasPlain r.
Proof.
  destruct s as [|a [|b [|c s]]]; space_cases; try discriminate;
    intros [= <-];
    repeat match goal with
           | H : isSpace _ = true |- _ =>
               rewrite (isSpace_not_plain _ H); clear H
           | H : isSpace2 _ _ = true |- _ =>
               destruct (isSpace2_high _ _ H) as [-> ->]; clear H
           | H : isSpace3 _ _ _ = true |- _ =>
               destruct (isSpace3_high _ _ _ H) as (-> & -> & ->); clear H
           end; reflexivity.
Qed.

Lemma plain_not_onlySpace (s : string) :
  hasPlain s = true -> onlySpace s = false.
Proof.
  unfold onlySpace.
  induction s as [s E | s r E IH] using leading_space_ind;
    rewrite trimStart_step, E.
  - destruct s; [discriminate | reflexivity].
  - rewrite (afterSpace_plain s r E). exact IH.
Qed.

Lemma hasPlain_here (s t : string) :
  hasPlain s = true -> hasPlain (s ++ t) = true.
Proof.
  induction s as [|c s IH]; [discriminate|]. cbn [append hasPlain].
  intros H. apply orb_prop in H as [->|H]; [reflexivity|].
  rewrite (IH H). apply orb_true_r.
Qed.

Lemma hasPlain_later (s t : string) :
  hasPlain t = true -> hasPlain (s ++ t) = true.
Proof.
  intros H. induction s as [|c s IH]; [exact H|]. cbn [append hasPlain].
  rewrite IH. apply orb_true_r.
Qed.

(** Trailing white space is looked for after the last plain byte. *)
Lemma trimEnd_append (s t : string) :
  hasPlain t = true -> trimEnd (s ++ t) = s ++ trimEnd t.
Proof.
  intros Ht. induction s as [|a s IH]; [reflexivity|].
  cbn [append trimEnd].
  rewrite (plain_not_onlySpace (String a (s ++ t))), IH; [reflexivity|].
  cbn [hasPlain]. rewrite (hasPlain_later s t Ht). apply orb_true_r.
Qed.

Ltac has_plain :=
  lazymatch goal with
  | |- hasPlain (_ ++ _) = true =>
      first [ apply hasPlain_here; vm_compute; reflexivity
            | apply hasPlain_later; has_plain ]
  | |- _ => vm_compute; reflexivity
  end.

(** [trim] removes the white space of every length: a byte order mark and a
    no-break space in front, a line separator and a space behind. *)
Example trim_removes_unicode_space :
  let byte n := String (ascii_of_nat n) "" in
  trim (byte 239 ++ byte 187 ++ byte 191 ++ byte 194 ++ byte 160
        ++ "<p>a b</p>" ++ byte 226 ++ byte 128 ++ byte 168 ++ " ")
  = "<p>a b</p>".
Proof. reflexivity. Qed.

(** ** The custom CSS *)

(** X4. For a present business information the custom CSS is returned
    (never thrown): it is the comment with the business name, the [:root]
    block that declares the three variables with the colors of
    [_getBaseColors], and a fixed tail of rules that does not depend on
    the request and that uses the three variables; it has no white space
    at either end. A color that the
    palette lookup does not provide (an industry that names a property of
    the object prototype) is written as [undefined]. *)
Theorem custom_css_declares_palette :
  exists rules : string,
    (forall (bi : BusinessInfo) (style colorScheme : JsStr),
      let colors := _getBaseColors colorScheme (industry bi) in
      exists css,
        _generateCustomCSS (Some bi) style colorScheme = Ok css
        /\ css
           = "/* Custom styles for " ++ tpl (name bi) ++ " */" ++ nl
             ++ ":root {" ++ nl
             ++ "    --primary-color: " ++ colorOf primary colors ++ ";" ++ nl
             ++ "    --secondary-color: " ++ colorOf secondary colors ++ ";"
             ++ nl
             ++ "    --accent-color: " ++ colorOf accent colors ++ ";" ++ nl
             ++ "}" ++ rules
        /\ trimmed css
        /\ (forall name, colors = Builtin name ->
              colorOf primary colors = "undefined"
              /\ colorOf secondary colors = "undefined"
              /\ colorOf accent colors = "undefined"))
    /\ includes rules "var(--primary-color)" = true
    /\ includes rules "var(--secondary-color)" = true
    /\ includes rules "var(--accent-color)" = true.
Proof.
  eexists. split.
  - intros bi style colorScheme colors. eexists.
    split; [reflexivity|]. split; [|split].
    + unfold trim.
      match goal with
      | |- trimEnd (trimStart (String ?c ?rest ++ ?x)) = _ =>
          change (trimStart (String c rest ++ x)) with (rest ++ x)
      end.
      repeat (rewrite trimEnd_append; [|solve [has_plain]]).
      fold colors.
      match goal with
      | |- context [trimEnd ?l] =>
          let v := eval vm_compute in (trimEnd l) in change (trimEnd l) with v
      end.
      reflexivity.
    + apply trim_trimmed.
    + intros name ->. repeat split.
  - repeat split; vm_compute; reflexivity.
Qed.

(** ** The generation pipeline *)

Lemma booking_feature_iff (recs : list Recommendation) (includeBooking : bool)
  (style : JsStr) :
  In "booking_integration" (_determineFeaturesIncluded recs includeBooking style)
  <-> includeBooking = true.
Proof.
  unfold _determineFeaturesIncluded, pushIf.
  destruct (strictEq style "modern"),
    (arrIncludes (map rec_type recs) "mobile_optimization"),
    (arrIncludes (map rec_type recs) "seo_optimization"),
    (arrIncludes (map rec_type recs) "conversion_optimization"),
    includeBooking; cbn; intuition (try discriminate; try congruence).
Qed.

Lemma modern_feature_iff (recs : list Recommendation) (includeBooking : bool)
  (style : JsStr) :
  In "modern_typography" (_determineFeaturesIncluded recs includeBooking style)
  <-> style = Str "modern".
Proof.
  assert (Hs : strictEq style "modern" = true <-> style = Str "modern").
  { destruct style as [| |s]; cbn; try (split; discriminate).
    rewrite String.eqb_eq. split; congruence. }
  rewrite <- Hs. unfold _determineFeaturesIncluded, pushIf.
  destruct (strictEq style "modern"),
    (arrIncludes (map rec_type recs) "mobile_optimization"),
    (arrIncludes (map rec_type recs) "seo_optimization"),
    (arrIncludes (map rec_type recs) "conversion_optimization"),
    includeBooking; cbn; intuition (try discriminate; try congruence).
Qed.

Lemma narrative_states_feature_count (recs : list Recommendation)
  (features : list string) :
  includes (_generateImprovementDescription recs features)
    ("Features " ++ num (List.length features) ++ " modern web components")
  = true.
Proof.
  unfold _generateImprovementDescription. apply includes_skip.
  replace (". Features " ++ num (List.length features)
           ++ " modern web components for enhanced user experience and business growth.")
    with (". " ++ ("Features " ++ num (List.length features)
                   ++ " modern web components")
          ++ " for enhanced user experience and business growth.")
    by (now rewrite !append_assoc).
  apply includes_skip, includes_here.
Qed.

(** X1. [generateHomepage] throws an error that names its cause behind the
    prefix "Homepage generation failed: ": when the analysis has no
    business information the cause is the [TypeError] of reading it, and
    when the completion provider fails with a message the cause is
    "Failed to generate homepage code: " followed by that message. It
    returns a result exactly when neither happens. *)
Theorem generation_fails_with_named_cause (env : Env)
  (analysis : AnalysisResult) (businessName style : JsStr)
  (includeBooking : bool) (colorScheme : JsStr) :
  let run :=
    generateHomepage env analysis businessName style includeBooking
      colorScheme in
  let prompt bi :=
    _createHomepagePrompt businessName (Some bi) (recommendationsOf analysis)
      (defaultTo (Str "modern") style) includeBooking
      (defaultTo Null colorScheme) in
  (business_info analysis = None ->
   run = Throw ("Homepage generation failed: "
                ++ "Cannot read properties of undefined (reading 'business_type')"))
  /\ (forall bi text cause,
        business_info analysis = Some bi -> prompt bi = Ok text ->
        completion env text = Throw cause ->
        run = Throw ("Homepage generation failed: "
                     ++ "Failed to generate homepage code: " ++ cause))
  /\ ((exists result, run = Ok result)
      <-> (exists bi text content,
             business_info analysis = Some bi /\ prompt bi = Ok text
             /\ completion env text = Ok content)).
Proof.
  cbv zeta. unfold generateHomepage, _generateHomepageCode, recommendationsOf.
  destruct (business_info analysis) as [bi|] eqn:Hbi.
  - split; [discriminate|].
    cbn [_createHomepagePrompt readProps bind _generateCustomCSS].
    split.
    + intros bi' text cause [= <-] [= <-] Hc. rewrite Hc. reflexivity.
    + match goal with
      | |- context [completion env ?p] => destruct (completion env p) eqn:Hc
      end; cbn [rethrowAs bind].
      * split; [|intros _; eexists; reflexivity].
        intros _. eexists _, _, _. split; [reflexivity|].
        split; [reflexivity | exact Hc].
      * split; [intros [r Hr]; discriminate|].
        intros (bi' & text & content & [= <-] & [= <-] & Hok). congruence.
  - split; [reflexivity|]. split; [discriminate|].
    split; [intros [r Hr]; discriminate|].
    intros (bi' & _ & _ & Hno & _). discriminate.
Qed.

Lemma generation_result_shape (env : Env) (analysis : AnalysisResult)
  (businessName style : JsStr) (includeBooking : bool) (colorScheme : JsStr)
  (result : GenerationResult) :
  generateHomepage env analysis businessName style includeBooking colorScheme
  = Ok result ->
  style_applied result = defaultTo (Str "modern") style
  /\ features_included result
     = _determineFeaturesIncluded (recommendationsOf analysis) includeBooking
         (defaultTo (Str "modern") style).
Proof.
  unfold generateHomepage, _generateHomepageCode.
  destruct (business_info analysis) as [bi|]; [|discriminate].
  cbn [_createHomepagePrompt readProps bind _generateCustomCSS].
  match goal with
  | |- context [completion env ?p] => destruct (completion env p)
  end; cbn [rethrowAs bind]; [|discriminate].
  intros [= <-]. split; reflexivity.
Qed.

(** X2. A result that [generateHomepage] returns is consistent: it carries
    the identifier drawn and the business name given; its html is the
    answer of the provider to the prompt, trimmed, that is the answer
    without the white space in front of it and behind it; neither the html
    nor the css starts or ends with white space; the booking script is present
    exactly when booking is requested, which is exactly when the feature
    list announces the booking integration; the feature list has the
    modern typography exactly when the style applied is "modern"; and the
    narrative states the length of the feature list of the same result. *)
Theorem generation_result_is_consistent (env : Env)
  (analysis : AnalysisResult) (businessName style : JsStr)
  (includeBooking : bool) (colorScheme : JsStr) (result : GenerationResult) :
  generateHomepage env analysis businessName style includeBooking colorScheme
  = Ok result ->
  id result = uuidv4 env
  /\ business_name result = businessName
  /\ (exists bi text content,
        business_info analysis = Some bi
        /\ _createHomepagePrompt businessName (Some bi)
             (recommendationsOf analysis) (defaultTo (Str "modern") style)
             includeBooking (defaultTo Null colorScheme) = Ok text
        /\ completion env text = Ok content
        /\ html_code result = trim content
        /\ exists front back,
             content = front ++ html_code result ++ back
             /\ whiteSpace front /\ whiteSpace back)
  /\ trimmed (html_code result)
  /\ trimmed (css_code result)
  /\ (js_code result <> None <-> includeBooking = true)
  /\ (In "booking_integration" (features_included result)
      <-> includeBooking = true)
  /\ (In "modern_typography" (features_included result)
      <-> style_applied result = Str "modern")
  /\ includes (estimated_improvement result)
       ("Features " ++ num (List.length (features_included result))
        ++ " modern web components") = true.
Proof.
  unfold generateHomepage, _generateHomepageCode.
  destruct (business_info analysis) as [bi|] eqn:Hbi; [|discriminate].
  cbn [_createHomepagePrompt readProps bind _generateCustomCSS].
  match goal with
  | |- context [completion env ?p] => destruct (completion env p) eqn:Hc
  end; cbn [rethrowAs bind]; [|discriminate].
  intros [= <-]. cbn [id business_name html_code css_code js_code
    features_included style_applied estimated_improvement].
  split; [reflexivity|]. split; [reflexivity|].
  split.
  { eexists _, _, _. split; [reflexivity|]. split; [reflexivity|].
    split; [exact Hc|]. split; [reflexivity | apply trim_split]. }
  split; [apply trim_trimmed|]. split; [apply trim_trimmed|].
  split; [destruct includeBooking; split; congruence|].
  split; [apply booking_feature_iff|].
  split; [apply modern_feature_iff|].
  apply narrative_states_feature_count.
Qed.

Lemma generation_result_is_consistent_witness :
  let env :=
    mkEnv "0b9d8a52-5c0e-4a7e-9f57-6c1d3e2a4b10" 1000 1420
      "2026-01-01T00:00:00.000Z"
      (fun _ => Ok "  <!DOCTYPE html><html><body>Smile</body></html>  ") in
  let analysis :=
    mkAnalysis
      (Some (mkBusinessInfo (Str "Smile Dental") (Str "dentist")
               (Str "healthcare") Undefined None Null (Str "555-0100")))
      None in
  exists result,
    generateHomepage env analysis (Str "Smile Dental") Undefined true Undefined
    = Ok result
    /\ html_code result = "<!DOCTYPE html><html><body>Smile</body></html>"
    /\ style_applied result = Str "modern"
    /\ In "booking_integration" (features_included result).
Proof.
  cbv zeta. eexists. split; [reflexivity|]. split; [reflexivity|].
  split; [reflexivity|].
  match goal with
  | |- In _ (features_included ?r) =>
      exact (proj2 (proj1 (proj2 (proj2 (proj2 (proj2 (proj2 (proj2
               (generation_result_is_consistent
                  (mkEnv "0b9d8a52-5c0e-4a7e-9f57-6c1d3e2a4b10" 1000 1420
                     "2026-01-01T00:00:00.000Z"
                     (fun _ =>
                        Ok "  <!DOCTYPE html><html><body>Smile</body></html>  "))
                  (mkAnalysis
                     (Some (mkBusinessInfo (Str "Smile Dental") (Str "dentist")
                              (Str "healthcare") Undefined None Null
                              (Str "555-0100")))
                     None)
                  (Str "Smile Dental") Undefined true Undefined r
                  eq_refl)))))))) eq_refl)
  end.
Defined.

(** X3. The defaults of [generateHomepage] apply to an omitted preference
    only: an undefined style behaves as "modern" and an undefined color
    scheme as null, whereas a null style is kept, so that a returned
    result has the style null and none of the modern-style features. *)
Theorem defaults_apply_to_undefined_only (env : Env)
  (analysis : AnalysisResult) (businessName : JsStr) (includeBooking : bool)
  (colorScheme : JsStr) :
  generateHomepage env analysis businessName Undefined includeBooking Undefined
  = generateHomepage env analysis businessName (Str "modern") includeBooking
      Null
  /\ (forall result,
        generateHomepage env analysis businessName Null includeBooking
          colorScheme = Ok result ->
        style_applied result = Null
        /\ ~ In "modern_typography" (features_included result)
        /\ ~ In "gradient_backgrounds" (features_included result)).
Proof.
  split; [reflexivity|]. intros result H.
  destruct (generation_result_shape env analysis businessName Null
              includeBooking colorScheme result H) as [Hs Hf].
  rewrite Hs, Hf. split; [reflexivity|].
  unfold _determineFeaturesIncluded, pushIf. cbn [strictEq].
  destruct (arrIncludes (map rec_type (recommendationsOf analysis))
              "mobile_optimization"),
    (arrIncludes (map rec_type (recommendationsOf analysis)) "seo_optimization"),
    (arrIncludes (map rec_type (recommendationsOf analysis))
       "conversion_optimization"),
    includeBooking; cbn; intuition discriminate.
Qed.

Lemma arrIncludes_same_types (l l' : list JsStr) (lit : string) :
  (forall t, In t l <-> In t l') -> arrIncludes l lit = arrIncludes l' lit.
Proof.
  intros Hsame. unfold arrIncludes.
  destruct (existsb (fun v => strictEq v lit) l) eqn:E;
    destruct (existsb (fun v => strictEq v lit) l') eqn:E'; try reflexivity.
  - apply existsb_exists in E as [v [Hin Hv]]. apply Hsame in Hin.
    assert (existsb (fun v => strictEq v lit) l' = true)
      by (apply existsb_exists; now exists v).
    congruence.
  - apply existsb_exists in E' as [v [Hin Hv]]. apply Hsame in Hin.
    assert (existsb (fun v => strictEq v lit) l = true)
      by (apply existsb_exists; now exists v).
    congruence.
Qed.

(** X5. The feature list depends on the recommendations only through the
    set of their types: two lists of recommendations with the same types,
    in whatever order and however often repeated, give the same features.
    The list always has between 5 and 11 tokens. *)
Theorem features_depend_on_types_present (recs recs' : list Recommendation)
  (includeBooking : bool) (style : JsStr) :
  (forall t, In t (map rec_type recs) <-> In t (map rec_type recs')) ->
  _determineFeaturesIncluded recs includeBooking style
  = _determineFeaturesIncluded recs' includeBooking style
  /\ 5 <= List.length (_determineFeaturesIncluded recs includeBooking style)
     <= 11.
Proof.
  intros Hsame. unfold _determineFeaturesIncluded.
  rewrite !(arrIncludes_same_types _ _ _ Hsame). split; [reflexivity|].
  unfold pushIf.
  destruct (strictEq style "modern"),
    (arrIncludes (map rec_type recs') "mobile_optimization"),
    (arrIncludes (map rec_type recs') "seo_optimization"),
    (arrIncludes (map rec_type recs') "conversion_optimization"),
    includeBooking; cbn; lia.
Qed.

Lemma features_depend_on_types_present_witness :
  let seo := mkRec (Str "seo_optimization") Undefined Undefined in
  let mobile := mkRec (Str "mobile_optimization") Undefined Undefined in
  _determineFeaturesIncluded [seo; mobile; seo] false (Str "classic")
  = _determineFeaturesIncluded [mobile; seo] false (Str "classic").
Proof.
  cbv zeta.
  apply (features_depend_on_types_present
           [mkRec (Str "seo_optimization") Undefined Undefined;
            mkRec (Str "mobile_optimization") Undefined Undefined;
            mkRec (Str "seo_optimization") Undefined Undefined]
           [mkRec (Str "mobile_optimization") Undefined Undefined;
            mkRec (Str "seo_optimization") Undefined Undefined]
           false (Str "classic")).
  intros t. cbn. tauto.
Defined.

Lemma narrative_states_recommendation_count (recs : list Recommendation)
  (features : list string) :
  includes (_generateImprovementDescription recs features)
    ("Implemented " ++ num (List.length recs) ++ " key improvements")
  = true.
Proof.
  unfold _generateImprovementDescription.
  set (n := num (List.length recs)). set (rest := join _ _).
  destruct (Nat.ltb 3 _).
  - replace ((("Implemented " ++ n ++ " key improvements including ") ++ rest)
             ++ _ )
      with (("Implemented " ++ n ++ " key improvements")
            ++ " including " ++ rest ++ ", and "
            ++ num (List.length (setOf (map improvementType recs)) - 3)
            ++ " other improvements")
      by (rewrite !append_assoc; reflexivity).
    rewrite append_assoc. apply includes_here.
  - replace (("Implemented " ++ n ++ " key improvements including ") ++ rest)
      with (("Implemented " ++ n ++ " key improvements")
            ++ " including " ++ rest)
      by (rewrite !append_assoc; reflexivity).
    rewrite append_assoc. apply includes_here.
Qed.

(** X6. Only the first three recommendations reach the prompt: further
    recommendations after them leave the prompt unchanged, while the
    narrative still counts every recommendation. *)
Theorem prompt_ignores_later_recommendations (businessName : JsStr)
  (businessInfo : option BusinessInfo) (recs later : list Recommendation)
  (style : JsStr) (includeBooking : bool) (colorScheme : JsStr)
  (features : list string) :
  3 <= List.length recs ->
  _createHomepagePrompt businessName businessInfo (recs ++ later) style
    includeBooking colorScheme
  = _createHomepagePrompt businessName businessInfo recs style includeBooking
      colorScheme
  /\ includes (_generateImprovementDescription (recs ++ later) features)
       ("Implemented " ++ num (List.length recs + List.length later)
        ++ " key improvements") = true.
Proof.
  intros Hlen. split.
  - unfold _createHomepagePrompt, topRecommendations, slice0.
    rewrite firstn_app.
    replace (3 - List.length recs) with 0 by lia.
    cbn [firstn]. now rewrite app_nil_r.
  - rewrite <- length_app. apply narrative_states_recommendation_count.
Qed.

Lemma prompt_ignores_later_recommendations_witness :
  let rec n := mkRec Undefined (Str n) (Str "details") in
  let bi :=
    Some (mkBusinessInfo (Str "Acme") (Str "plumber") (Str "home_services")
            Undefined None Null Null) in
  3 <= List.length [rec "one"; rec "two"; rec "three"]
  /\ _createHomepagePrompt (Str "Acme") bi
       [rec "one"; rec "two"; rec "three"; rec "four"] (Str "bold") false Null
     = _createHomepagePrompt (Str "Acme") bi
         [rec "one"; rec "two"; rec "three"] (Str "bold") false Null.
Proof.
  cbv zeta. split; [cbn; lia|].
  exact (proj1 (prompt_ignores_later_recommendations (Str "Acme")
                  (Some (mkBusinessInfo (Str "Acme") (Str "plumber")
                           (Str "home_services") Undefined None Null Null))
                  [mkRec Undefined (Str "one") (Str "details");
                   mkRec Undefined (Str "two") (Str "details");
                   mkRec Undefined (Str "three") (Str "details")]
                  [mkRec Undefined (Str "four") (Str "details")]
                  (Str "bold") false Null []
                  ltac:(cbn; lia))).
Defined.

End GenerationProps.

(** * Further properties of the screenshot service *)

Module CaptureProps.
Import Js Screenshot Lifecycle CaptureSteps ScreenshotFiles StringFacts.

(** One capture in the ready state, in closed form, when the engine gives a
    page. *)
Lemma capture_run (o : Outcomes) (html css : string) (options : Options)
  (s : Service) (e : Engine) (b : Browser) :
  ready s b -> newPageOk o = true ->
  generateScreenshot o html css options (mkWorld s e)
  = (captureResult o,
     mkWorld s
       (mkEngine
          (if closeOk o
           then filter (fun q => negb (Nat.eqb q (nextPage e)))
                  (nextPage e :: openPages e)
           else nextPage e :: openPages e)
          (S (nextPage e))
          (events e
           ++ NewPage b (Some (nextPage e))
              :: firstn (stepsIssued o)
                   (pageSteps (nextPage e) html css options)
           ++ [PageClose (nextPage e)])%list)).
Proof.
  destruct s as [br ini]. destruct e as [pages next evs]. intros [Hb Hi] Hnp.
  simpl in Hb, Hi. subst br ini.
  destruct o as [np sv sc wt sh cl]. simpl in Hnp. subst np.
  unfold generateScreenshot, pageSteps.
  cbn [bind gets this isInitialized browser].
  generalize (_createCompleteHtml html css) as doc.
  generalize (orDefault 1200 (width options)) as wd.
  generalize (orDefault 800 (height options)) as hd.
  generalize (orDefault 1 (deviceScaleFactor options)) as dsf.
  generalize (orDefault true (fullPage options)) as fp.
  generalize (orDefault 90 (quality options)) as ql.
  generalize (orDefault "png" (format options)) as fmt.
  intros fmt ql fp dsf hd wd doc.
  generalize (if fmt =? "jpeg" then Some ql else None) as qo. intros qo.
  destruct sv, sc, wt, sh as [image|], cl;
    cbv -[filter app]; rewrite <- ?app_assoc; reflexivity.
Qed.

(** X7. In the ready state, once the engine has given a page, the calls on
    it are issued in the order setViewport, setContent, waitForTimeout,
    screenshot, with the requested viewport (1200 x 800 at scale 1 by
    default), the document built from the html and css, a wait of 1000
    ms, and the quality only for jpeg; they stop after the first call that
    fails, and the close of the page follows in every case. *)
Theorem capture_calls_in_order (o : Outcomes) (html css : string)
  (options : Options) (w : World) (b : Browser) :
  ready (this w) b -> newPageOk o = true ->
  let p := nextPage (engine w) in
  events (engine (snd (generateScreenshot o html css options w)))
  = (events (engine w)
     ++ NewPage b (Some p)
        :: firstn (stepsIssued o) (pageSteps p html css options)
     ++ [PageClose p])%list.
Proof.
  destruct w as [s e]. intros Hready Hnp.
  now rewrite (capture_run o html css options s e b Hready Hnp).
Qed.

Lemma capture_calls_in_order_witness :
  let w := mkWorld (mkService (Some 7) true) (mkEngine [] 0 []) in
  let o := mkOutcomes true true TimedOut true None true in
  ready (this w) 7
  /\ events (engine (snd (generateScreenshot o "<p>Hello</p>" "" noOptions w)))
     = [ NewPage 7 (Some 0); SetViewport 0 1200 800 1;
         SetContent 0 (_createCompleteHtml "<p>Hello</p>" "");
         PageClose 0 ].
Proof.
  cbv zeta. split; [split; reflexivity|].
  exact (capture_calls_in_order
           (mkOutcomes true true TimedOut true None true) "<p>Hello</p>" ""
           noOptions (mkWorld (mkService (Some 7) true) (mkEngine [] 0 []))
           7 (conj eq_refl eq_refl) eq_refl).
Defined.

(** X8. In the ready state, once the engine has given a page: when the
    close of the page succeeds the capture rethrows the error of the first
    failing call unchanged, or returns the image when none fails; when the
    close fails, the capture throws the error of the close instead, also
    when the screenshot was taken. *)
Theorem capture_rethrows_first_failure (o : Outcomes) (html css : string)
  (options : Options) (w : World) (b : Browser) :
  ready (this w) b -> newPageOk o = true ->
  let result := fst (generateScreenshot o html css options w) in
  (closeOk o = false -> result = Raise (EngineFailure "close"))
  /\ (closeOk o = true -> forall e, firstFailure o = Some e -> result = Raise e)
  /\ (closeOk o = true -> firstFailure o = None ->
      exists image, screenshotResult o = Some image /\ result = Return image).
Proof.
  destruct w as [s e]. intros Hready Hnp.
  rewrite (capture_run o html css options s e b Hready Hnp).
  cbn [fst]. unfold captureResult. split; [|split].
  - now intros ->.
  - now intros -> err ->.
  - intros -> Hnone. rewrite Hnone. unfold firstFailure in Hnone.
    destruct (screenshotResult o) as [image|]; [now exists image|].
    destruct (setViewportOk o), (setContentOutcome o), (waitForTimeoutOk o);
      discriminate.
Qed.

Lemma capture_rethrows_first_failure_witness :
  let w := mkWorld (mkService (Some 7) true) (mkEngine [] 0 []) in
  let o := mkOutcomes true true Loaded true (Some [137; 80]) false in
  ready (this w) 7
  /\ fst (generateScreenshot o "<p>Hello</p>" "" noOptions w)
     = Raise (EngineFailure "close").
Proof.
  cbv zeta. split; [split; reflexivity|].
  exact (proj1 (capture_rethrows_first_failure
                  (mkOutcomes true true Loaded true (Some [137; 80]) false)
                  "<p>Hello</p>" "" noOptions
                  (mkWorld (mkService (Some 7) true) (mkEngine [] 0 []))
                  7 (conj eq_refl eq_refl) eq_refl) eq_refl).
Defined.

Lemma not_ready_capture (o : Outcomes) (html css : string) (options : Options)
  (w : World) :
  truthyReady (isReady (this w)) = false ->
  generateScreenshot o html css options w = (Raise NotInitialized, w).
Proof.
  destruct w as [[[b|] [|]] e]; cbn; try discriminate; reflexivity.
Qed.

Lemma not_ready_viewports (toBase64 : Buffer -> string)
  (outcomes : string -> Outcomes) (html css : string) (w : World)
  (entries : list (string * Options))
  (screenshots : list (string * option string)) :
  truthyReady (isReady (this w)) = false ->
  forEachViewport toBase64 entries outcomes html css screenshots w
  = (Return (fold_left (fun acc entry => setProperty (fst entry) None acc)
               entries screenshots), w).
Proof.
  intros Hoff. revert screenshots.
  induction entries as [|[device viewport] rest IH]; intros screenshots;
    [reflexivity|].
  cbn [forEachViewport fold_left fst].
  unfold bind at 1. unfold tryCatch, generateScreenshotDataUrl.
  unfold bind at 1. unfold bind at 1.
  rewrite (not_ready_capture _ html css _ w Hoff). unfold ret at 1.
  apply IH.
Qed.

(** X9. On a service that is not ready no capture reaches the engine or the
    file system: the single capture, the data-URL capture and the capture
    to a file throw the not-initialized error and leave everything as it
    was, and the responsive capture returns the record with all three
    entries null instead of throwing. *)
Theorem disabled_service_touches_nothing (toBase64 : Buffer -> string)
  (dirname : string -> string) (o : Outcomes) (outcomes : string -> Outcomes)
  (fs : FsOutcomes) (html css path : string) (options : Options)
  (m : Machine) :
  truthyReady (isReady (this (services m))) = false ->
  generateScreenshot o html css options (services m)
  = (Raise NotInitialized, services m)
  /\ generateScreenshotDataUrl toBase64 o html css options (services m)
     = (Raise NotInitialized, services m)
  /\ generateResponsiveScreenshots toBase64 outcomes html css (services m)
     = (Return [("desktop", None); ("tablet", None); ("mobile", None)],
        services m)
  /\ generateScreenshotFile dirname o fs html css path options m
     = (Failed (CaptureError NotInitialized), m).
Proof.
  intros Hoff.
  assert (Hcap := fun o options =>
                    not_ready_capture o html css options (services m) Hoff).
  split; [apply Hcap|]. split; [|split].
  - unfold generateScreenshotDataUrl, bind. now rewrite Hcap.
  - unfold generateResponsiveScreenshots.
    now rewrite (not_ready_viewports toBase64 outcomes html css _ viewports []
                   Hoff).
  - unfold generateScreenshotFile. rewrite Hcap. now destruct m.
Qed.

Lemma disabled_service_touches_nothing_witness :
  let m := mkMachine (mkWorld constructor (mkEngine [] 0 [])) [] in
  truthyReady (isReady (this (services m))) = false
  /\ fst (generateResponsiveScreenshots (fun _ => "") (fun _ =>
            mkOutcomes true true Loaded true (Some []) true)
            "<p>Hello</p>" "" (services m))
     = Return [("desktop", None); ("tablet", None); ("mobile", None)].
Proof.
  cbv zeta. split; [reflexivity|].
  rewrite (proj1 (proj2 (proj2
            (disabled_service_touches_nothing (fun _ => "") (fun p => p)
               (mkOutcomes true true Loaded true (Some []) true)
               (fun _ => mkOutcomes true true Loaded true (Some []) true)
               (mkFsOutcomes true true) "<p>Hello</p>" "" "out/shot.png"
               noOptions
               (mkMachine (mkWorld constructor (mkEngine [] 0 [])) [])
               eq_refl)))).
  reflexivity.
Defined.

Lemma allOk_parts (o : Outcomes) :
  allOk o = true ->
  newPageOk o = true /\ closeOk o = true /\ stepsIssued o = 4
  /\ exists image, screenshotResult o = Some image
                   /\ captureResult o = Return image.
Proof.
  destruct o as [np sv sc wt sh cl]. unfold allOk, captureResult, firstFailure,
    stepsIssued. cbn.
  destruct np, sv, sc, wt, sh as [image|], cl; try discriminate.
  intros _. repeat split. now exists image.
Qed.

(** X10. A data-URL capture that succeeds returns
    [data:image/F;base64,] followed by the base64 text of the image the
    engine returned, where F is the format of the options, or png when
    there is none or it is the empty string. The engine is asked for the
    type given by the format, png when there is none: the two agree
    except for the empty format, for which the engine is asked for the
    empty type while the URL says png. *)
Theorem data_url_announces_format (toBase64 : Buffer -> string)
  (o : Outcomes) (html css : string) (options : Options) (w : World)
  (b : Browser) :
  ready (this w) b -> allOk o = true ->
  let run := generateScreenshotDataUrl toBase64 o html css options w in
  let requested := orDefault "png" (format options) in
  exists image,
    screenshotResult o = Some image
    /\ fst run
       = Return ("data:image/" ++ mediaType options ++ ";base64,"
                 ++ toBase64 image)
    /\ In (TakeScreenshot (nextPage (engine w)) requested
             (orDefault true (fullPage options))
             (if requested =? "jpeg" then Some (orDefault 90 (quality options))
              else None))
          (events (engine (snd run)))
    /\ (format options <> Some "" -> requested = mediaType options)
    /\ (format options = Some "" -> requested = "" /\ mediaType options = "png").
Proof.
  destruct w as [s e]. intros Hready Hok. cbv zeta.
  destruct (allOk_parts o Hok) as (Hnp & _ & Hsteps & image & Himg & Hres).
  exists image. unfold generateScreenshotDataUrl, bind.
  rewrite (capture_run o html css options s e b Hready Hnp), Hres, Hsteps.
  unfold ret. cbn [fst snd engine events].
  unfold mediaType.
  split; [exact Himg|]. split; [reflexivity|]. split; [|split].
  - apply in_or_app. right. right. apply in_or_app. left.
    unfold pageSteps. cbn [firstn]. right. right. right. left. reflexivity.
  - destruct (format options) as [f|]; [|reflexivity].
    cbn. destruct (String.eqb_spec f "") as [->|_]; [congruence | reflexivity].
  - intros ->. split; reflexivity.
Qed.

Lemma data_url_announces_format_witness :
  let w := mkWorld (mkService (Some 7) true) (mkEngine [] 0 []) in
  let o := mkOutcomes true true Loaded true (Some [255; 216; 255]) true in
  let options := mkOptions None None None None (Some "jpeg") None in
  ready (this w) 7 /\ allOk o = true
  /\ fst (generateScreenshotDataUrl (fun _ => "/9j/") o "<p>Hello</p>" ""
            options w)
     = Return "data:image/jpeg;base64,/9j/".
Proof.
  cbv zeta. split; [split; reflexivity|]. split; [reflexivity|].
  destruct (data_url_announces_format (fun _ => "/9j/")
              (mkOutcomes true true Loaded true (Some [255; 216; 255]) true)
              "<p>Hello</p>" ""
              (mkOptions None None None None (Some "jpeg") None)
              (mkWorld (mkService (Some 7) true) (mkEngine [] 0 []))
              7 (conj eq_refl eq_refl) eq_refl)
    as (image & _ & Hurl & _).
  exact Hurl.
Defined.

(** X11. Saving a screenshot to a file captures first: when the capture
    throws, its error is passed on and the file system is not touched;
    when it returns an image, the directory of the output path is created
    and only then the image is written to the path (not at all when the
    directory cannot be created), and the path is returned exactly when
    both calls succeed. The service and the engine are left as the
    capture leaves them. *)
Theorem screenshot_file_follows_capture (dirname : string -> string)
  (o : Outcomes) (fs : FsOutcomes) (html css path : string)
  (options : Options) (m : Machine) :
  let capture := generateScreenshot o html css options (services m) in
  let run := generateScreenshotFile dirname o fs html css path options m in
  services (snd run) = snd capture
  /\ (forall e, fst capture = Raise e ->
        fst run = Failed (CaptureError e) /\ fsCalls (snd run) = fsCalls m)
  /\ (forall image, fst capture = Return image ->
        fsCalls (snd run)
        = (fsCalls m
           ++ Mkdir (dirname path)
              :: (if mkdirOk fs then [WriteFile path image] else []))%list
        /\ written (fsCalls (snd run))
           = (written (fsCalls m) ++ (if mkdirOk fs then [path] else []))%list
        /\ (fst run = Saved path
            <-> mkdirOk fs = true /\ writeFileOk fs = true)).
Proof.
  cbv zeta. unfold generateScreenshotFile.
  destruct (generateScreenshot o html css options (services m))
    as [[image|e] w']; cbn [fst snd].
  - assert (Hw : forall a c, written (a ++ c) = (written a ++ written c)%list).
    { induction a as [|[d|p x] a IH]; intros c; cbn; [reflexivity| |];
        now rewrite IH. }
    destruct (mkdirOk fs), (writeFileOk fs); cbn [fst snd services fsCalls];
      (split; [reflexivity|]); (split; [discriminate|]);
      intros image' [= <-]; rewrite <- ?app_assoc; cbn [app];
      (split; [reflexivity|]); rewrite ?Hw; cbn;
      (split; [reflexivity|]); split; try discriminate;
      try (intros [? ?]; discriminate); auto.
  - split; [reflexivity|]. split; [|discriminate].
    intros e' [= <-]. split; reflexivity.
Qed.

(** X12. [initialize] only launches: it issues one launch to the engine and
    nothing else, so a browser the service already holds is never closed
    by it. After a failed launch the service keeps the handle it had and
    is not initialized; after a successful one it holds the new handle.
    Initializing twice and cleaning up closes the second browser only. *)
Theorem initialize_never_closes_a_browser (w : World)
  (launchResult : option Browser) :
  let w' := snd (initialize launchResult w) in
  events (engine w') = (events (engine w) ++ [Launch launchResult])%list
  /\ openPages (engine w') = openPages (engine w)
  /\ browser (this w')
     = match launchResult with
       | Some b => Some b
       | None => browser (this w)
       end
  /\ isInitialized (this w')
     = match launchResult with Some _ => true | None => false end
  /\ (forall (e : Engine) (first second : Browser),
        let twice :=
          snd (initialize (Some second)
                 (snd (initialize (Some first) (mkWorld constructor e)))) in
        events (engine (snd (cleanup true twice)))
        = (events e
           ++ [Launch (Some first); Launch (Some second);
               BrowserClose second])%list
        /\ browserCloses (events (engine (snd (cleanup true twice))))
           = S (browserCloses (events e))).
Proof.
  destruct w as [[br ini] [pages next evs]].
  assert (Htwice : forall (e : Engine) (first second : Browser),
    events (engine (snd (cleanup true
      (snd (initialize (Some second)
         (snd (initialize (Some first) (mkWorld constructor e))))))))
    = (events e ++ [Launch (Some first); Launch (Some second);
                    BrowserClose second])%list).
  { intros [pages' next' evs'] first second. cbn.
    now rewrite <- !app_assoc. }
  assert (Hcloses : forall t u, browserCloses (t ++ u)
                                = browserCloses t + browserCloses u).
  { induction t as [|ev t IH]; intros u; [reflexivity|].
    destruct ev; cbn; now rewrite IH. }
  cbv zeta.
  split; [now destruct launchResult|]. split; [now destruct launchResult|].
  split; [now destruct launchResult|]. split; [now destruct launchResult|].
  intros e first second. split; [apply Htwice|].
  rewrite Htwice, Hcloses. cbn. lia.
Qed.

(** X13. When the engine fails to close the browser, [cleanup] throws and
    resets nothing: a service that was ready stays ready with the same
    browser, and a later [cleanup] asks the engine to close that same
    browser again and, when that succeeds, leaves the service not ready. *)
Theorem failed_cleanup_keeps_the_service (b : Browser) (e : Engine) :
  let w := mkWorld (mkService (Some b) true) e in
  let failed := cleanup false w in
  let retried := cleanup true (snd failed) in
  fst failed = Raise (EngineFailure "browser.close")
  /\ this (snd failed) = this w
  /\ truthyReady (isReady (this (snd failed))) = true
  /\ fst retried = Return tt
  /\ events (engine (snd retried))
     = (events e ++ [BrowserClose b; BrowserClose b])%list
  /\ this (snd retried) = mkService None false.
Proof.
  destruct e as [pages next evs]. cbn.
  repeat split. now rewrite <- app_assoc.
Qed.

End CaptureProps.

(** * The application *)

Module AppProps.
Import Js Screenshot Lifecycle App.

(** X18. With an API key in the environment, the health check reports
    "unhealthy" before start-up; after start-up the generator is ready
    whatever the browser launch did, and the health check reports
    "healthy" exactly when the launch succeeded; after a shutdown that
    completes it reports "unhealthy" again. *)
Theorem health_follows_browser_launch (key : JsStr) (e : Engine)
  (launchResult : option Browser) :
  truthy key = true ->
  let app := startup launchResult (boot key e) in
  healthStatus (boot key e) = "unhealthy"
  /\ generatorIsReady (generator app) = true
  /\ (healthStatus app = "healthy" <-> launchResult <> None)
  /\ (forall closeOk : bool,
        fst (shutdown closeOk app) = Return tt ->
        healthStatus (snd (shutdown closeOk app)) = "unhealthy").
Proof.
  intros Hkey. cbv zeta. unfold healthStatus, boot, startup, shutdown.
  split; [cbn; now rewrite Hkey|].
  split; [destruct launchResult; cbn; exact Hkey|].
  split.
  - destruct launchResult as [b|]; cbn; rewrite Hkey; cbn.
    + split; [discriminate | reflexivity].
    + split; [discriminate | congruence].
  - intros closeOk.
    destruct launchResult as [b|], closeOk; cbn; rewrite ?Hkey; cbn;
      trivial; discriminate.
Qed.

Lemma health_follows_browser_launch_witness :
  truthy (Str "sk-test") = true
  /\ healthStatus (startup None (boot (Str "sk-test") (mkEngine [] 0 [])))
     <> "healthy".
Proof.
  split; [reflexivity|].
  intros H.
  exact (proj1 (proj1 (proj2 (proj2
           (health_follows_browser_launch (Str "sk-test") (mkEngine [] 0 [])
              None eq_refl)))) H eq_refl).
Defined.

End AppProps.

(** * Further properties of the document builder *)

Module CompleteHtmlProps.
Import Js Screenshot Replacement StringFacts.

Lemma splitFirst_none (needle s : string) :
  includes s needle = false -> splitFirst needle s = None.
Proof.
  induction s as [|c s IH]; cbn [includes splitFirst].
  - rewrite orb_false_r. now intros ->.
  - intros H. apply orb_false_elim in H as [Hhere Hlater].
    now rewrite Hhere, (IH Hlater).
Qed.

Lemma startsWith_longer (x a t : string) :
  startsWith x a = true -> startsWith x (a ++ t) = true.
Proof.
  revert a. induction x as [|c x IH]; intros a; [reflexivity|].
  destruct a as [|d a]; cbn; [discriminate|].
  intros H. apply andb_prop in H as [Hc Hrest]. rewrite Hc. now apply IH.
Qed.

Lemma includes_longer (a t x : string) :
  includes a x = true -> includes (a ++ t) x = true.
Proof.
  induction a as [|c a IH]; cbn [includes append].
  - rewrite orb_false_r. destruct x; [|discriminate].
    intros _. now destruct t.
  - intros H. apply orb_prop in H as [H|H].
    + pose proof (startsWith_longer x (String c a) t H) as H'.
      cbn [append] in H'. now rewrite H'.
    + rewrite (IH H). apply orb_true_r.
Qed.

(** X14. A document that is taken as complete because of its doctype but
    has neither [</head>] nor an [<html] tag is returned as it is: the css
    is not applied at all. So is every complete document when the css is
    empty. *)
Theorem css_is_dropped_without_anchor (html css : string) :
  looksComplete html = true ->
  (includes html "</head>" = false -> includes html "<html" = false ->
   _createCompleteHtml html css = html)
  /\ _createCompleteHtml html "" = html.
Proof.
  intros Hdoc. unfold _createCompleteHtml. rewrite Hdoc. split; [|reflexivity].
  intros Hhead Htag. rewrite Hhead.
  destruct (negb (css =? "")); [|reflexivity].
  unfold replace. now rewrite (splitFirst_none _ _ Htag).
Qed.

Lemma css_is_dropped_without_anchor_witness :
  looksComplete "<!DOCTYPE html><body>Hello</body>" = true
  /\ _createCompleteHtml "<!DOCTYPE html><body>Hello</body>" "body{color:red}"
     = "<!DOCTYPE html><body>Hello</body>".
Proof.
  split; [reflexivity|].
  exact (proj1 (css_is_dropped_without_anchor
                  "<!DOCTYPE html><body>Hello</body>" "body{color:red}"
                  eq_refl) eq_refl eq_refl).
Defined.

Lemma hasPattern_append (css t : string) :
  hasPattern css = false -> hasPattern t = false ->
  match t with String c _ => isPatternChar c = false | EmptyString => True end ->
  hasPattern (css ++ t) = false.
Proof.
  intros Hcss Ht Hfirst. induction css as [|a r IH]; [exact Ht|].
  cbn [hasPattern append]. cbn [hasPattern] in Hcss.
  apply orb_false_elim in Hcss as [Hhead Htail].
  rewrite (IH Htail), orb_false_r.
  destruct (Ascii.eqb a "$"); [|reflexivity]. cbn [andb] in *.
  destruct r as [|c r']; [|exact Hhead].
  cbn [append]. destruct t; [reflexivity | exact Hfirst].
Qed.

(** X15. For a complete document without [</head>] but with an [<html] tag,
    and a non-empty css without replacement patterns, the style block is
    put into a new head that is inserted before the first [<html],
    preceded by a second opening [<html>]: the text of the original tag
    follows the inserted head, so the result opens [<html] twice. *)
Theorem head_is_synthesized_before_html_tag (html css : string) :
  looksComplete html = true -> includes html "</head>" = false ->
  includes html "<html" = true -> css <> "" -> hasPattern css = false ->
  exists pre post,
    html = pre ++ "<html" ++ post
    /\ (forall pre' post', html = pre' ++ "<html" ++ post' ->
                           String.length pre <= String.length pre')
    /\ _createCompleteHtml html css
       = pre ++ "<html><head><style>" ++ css ++ "</style></head>"
         ++ "<html" ++ post.
Proof.
  intros Hdoc Hhead Htag Hcss Hplain. unfold _createCompleteHtml.
  rewrite Hdoc, Hhead, (ScreenshotProps.nonempty_truthy css Hcss).
  destruct (ScreenshotProps.includes_splitFirst _ _ Htag)
    as [pre [post Hsplit]].
  exists pre, post.
  split; [now apply ScreenshotProps.splitFirst_sound|].
  split; [now apply (ScreenshotProps.splitFirst_leftmost _ _ _ _ Hsplit)|].
  unfold replace. rewrite Hsplit. unfold styleBlock.
  rewrite ScreenshotProps.getSubstitution_plain.
  - now rewrite !append_assoc.
  - rewrite !append_assoc.
    change ("<html><head>" ++ "<style>" ++ css ++ "</style>" ++ "</head><html")
      with ("<html><head><style>" ++ css ++ "</style></head><html").
    change (hasPattern ("<html><head><style>" ++ css ++ "</style></head><html"))
      with (hasPattern (css ++ "</style></head><html")).
    apply hasPattern_append; [exact Hplain | reflexivity | reflexivity].
Qed.

Lemma head_is_synthesized_before_html_tag_witness :
  _createCompleteHtml "<html lang=en><body>Hello</body></html>"
    "body{color:red}"
  = "<html><head><style>body{color:red}</style></head><html lang=en><body>Hello</body></html>".
Proof.
  destruct (head_is_synthesized_before_html_tag
              "<html lang=en><body>Hello</body></html>" "body{color:red}"
              eq_refl eq_refl eq_refl ltac:(discriminate) eq_refl)
    as (pre & post & Hsplit & Hleft & Hres).
  specialize (Hleft "" " lang=en><body>Hello</body></html>" eq_refl).
  destruct pre as [|c pre]; [|cbn in Hleft; lia].
  cbn in Hsplit. injection Hsplit as <-. exact Hres.
Defined.

Lemma append_empty_tail (s : string) : s ++ "" = s.
Proof. induction s as [|c s IH]; cbn; [reflexivity | now rewrite IH]. Qed.

(** X16. A fragment that has been wrapped is a complete document: it has
    the doctype and a [</head>], so building it again wraps nothing, and
    with an empty css it is returned unchanged. *)
Theorem wrapped_fragment_is_complete (html css : string) :
  looksComplete html = false ->
  let document := _createCompleteHtml html css in
  looksComplete document = true
  /\ includes document "</head>" = true
  /\ _createCompleteHtml document "" = document.
Proof.
  intros Hfrag. cbv zeta.
  assert (Hdoc : _createCompleteHtml html css
                 = documentHead
                   ++ (if negb (css =? "") then styleBlock css else "")
                   ++ documentLink ++ html ++ documentTail).
  { unfold _createCompleteHtml. now rewrite Hfrag. }
  assert (Hcomplete : looksComplete (_createCompleteHtml html css) = true).
  { rewrite Hdoc. unfold looksComplete.
    apply orb_true_intro. left. now apply includes_longer. }
  split; [exact Hcomplete|]. split.
  - rewrite Hdoc. do 2 apply includes_skip. now apply includes_longer.
  - unfold _createCompleteHtml at 1. now rewrite Hcomplete.
Qed.

Lemma wrapped_fragment_is_complete_witness :
  looksComplete "<p>Hello</p>" = false
  /\ looksComplete (_createCompleteHtml "<p>Hello</p>" "body{color:red}") = true.
Proof.
  split; [reflexivity|].
  exact (proj1 (wrapped_fragment_is_complete "<p>Hello</p>" "body{color:red}"
                  eq_refl)).
Defined.

Lemma noDollar_append (a b : string) :
  noDollar a = true -> noDollar b = true -> noDollar (a ++ b) = true.
Proof.
  intros Ha Hb. induction a as [|x a IH]; [exact Hb|]. cbn in *.
  apply andb_prop in Ha as [Hx Ha]. rewrite Hx. now apply IH.
Qed.

Lemma noDollar_getSubstitution (matched preceding following a t : string) :
  noDollar a = true ->
  getSubstitution matched preceding following (a ++ t)
  = a ++ getSubstitution matched preceding following t.
Proof.
  intros Ha. induction a as [|x a IH]; [reflexivity|].
  cbn [noDollar] in Ha. apply andb_prop in Ha as [Hx Ha].
  apply negb_true_iff in Hx. cbn [append getSubstitution]. rewrite Hx.
  f_equal. now apply IH.
Qed.

Lemma pattern_getSubstitution (matched preceding following rest : string)
  (k : ascii) :
  isPatternChar k = true ->
  getSubstitution matched preceding following (String "$" (String k rest))
  = expandPattern k matched preceding following
    ++ getSubstitution matched preceding following rest.
Proof.
  unfold isPatternChar, expandPattern. intros Hk.
  cbn [getSubstitution]. change (Ascii.eqb "$" "$") with true. cbv iota.
  destruct (Ascii.eqb k "$"); [reflexivity|].
  destruct (Ascii.eqb k "&"); [reflexivity|].
  destruct (Ascii.eqb k "`"); [reflexivity|].
  destruct (Ascii.eqb k "'"); [reflexivity | discriminate].
Qed.

(** X17. For a complete document with [</head>], a replacement pattern in
    the css is expanded, not inserted: where the css holds a dollar sign
    followed by [$], [&], a backquote or a quote (between two stretches
    without dollar signs), the style block inserted before the first
    [</head>] holds a single dollar sign, the text [</head>], the part of
    the document before that [</head>], or the part after it. *)
Theorem css_patterns_are_expanded (html before after : string) (k : ascii) :
  looksComplete html = true -> includes html "</head>" = true ->
  noDollar before = true -> noDollar after = true -> isPatternChar k = true ->
  exists pre post,
    html = pre ++ "</head>" ++ post
    /\ (forall pre' post', html = pre' ++ "</head>" ++ post' ->
                           String.length pre <= String.length pre')
    /\ _createCompleteHtml html (before ++ String "$" (String k after))
       = pre ++ "<style>" ++ before ++ expandPattern k "</head>" pre post
         ++ after ++ "</style></head>" ++ post.
Proof.
  intros Hdoc Hhead Hb Ha Hk. unfold _createCompleteHtml.
  rewrite Hdoc, Hhead.
  assert (Hcss : negb (before ++ String "$" (String k after) =? "") = true)
    by now destruct before.
  rewrite Hcss.
  destruct (ScreenshotProps.includes_splitFirst _ _ Hhead)
    as [pre [post Hsplit]].
  exists pre, post.
  split; [now apply ScreenshotProps.splitFirst_sound|].
  split; [now apply (ScreenshotProps.splitFirst_leftmost _ _ _ _ Hsplit)|].
  unfold replace. rewrite Hsplit. unfold styleBlock. f_equal.
  replace (("<style>" ++ (before ++ String "$" (String k after)) ++ "</style>")
           ++ "</head>")
    with (("<style>" ++ before)
          ++ String "$" (String k (after ++ "</style></head>")))
    by (rewrite !append_assoc; reflexivity).
  rewrite noDollar_getSubstitution by (now apply noDollar_append).
  rewrite pattern_getSubstitution by exact Hk.
  rewrite <- (append_empty_tail (after ++ "</style></head>")) at 1.
  rewrite noDollar_getSubstitution by (now apply noDollar_append).
  cbn [getSubstitution]. rewrite append_empty_tail.
  now rewrite !append_assoc.
Qed.

Lemma css_patterns_are_expanded_witness :
  _createCompleteHtml "<html></head><body></body></html>"
    "a:after{content:'$$5'}"
  = "<html><style>a:after{content:'$5'}</style></head><body></body></html>".
Proof.
  destruct (css_patterns_are_expanded
              "<html></head><body></body></html>" "a:after{content:'"
              "5'}" "$" eq_refl eq_refl eq_refl eq_refl eq_refl)
    as (pre & post & Hsplit & Hleft & Hres).
  specialize (Hleft "<html>" "<body></body></html>" eq_refl).
  do 6 (destruct pre as [|? pre];
        [cbn in Hsplit; discriminate Hsplit
        | cbn in Hsplit; injection Hsplit as <- Hsplit]).
  destruct pre; [|cbn in Hleft; lia].
  cbn in Hsplit. injection Hsplit as <-. exact Hres.
Defined.

End CompleteHtmlProps.

(** * Properties of the request helpers *)

Module SanitizerProps.
Import Sanitizer.
#[local] Open Scope list_scope.

Lemma collapseFrom_shape (inRun : bool) (s : Text) :
  singleSpaced (collapseFrom inRun s) = true
  /\ (inRun = true -> startsClean (collapseFrom inRun s) = true).
Proof.
  revert inRun. induction s as [|u rest IH]; intros inRun; [now split|].
  cbn [collapseFrom]. destruct (isWhiteSpace u) eqn:Hu.
  - destruct inRun; [apply IH|].
    split; [|discriminate].
    destruct (IH true) as [Hs Hc]. specialize (Hc eq_refl).
    cbn [singleSpaced]. rewrite Hs. change (isWhiteSpace 32%N) with true.
    cbn [N.eqb Pos.eqb andb]. rewrite andb_true_r.
    destruct (collapseFrom true rest); [reflexivity | exact Hc].
  - split.
    + cbn [singleSpaced]. rewrite Hu. apply (IH false).
    + intros _. cbn [startsClean]. now rewrite Hu.
Qed.

Lemma singleSpaced_prefix (a t : Text) :
  singleSpaced (a ++ t) = true -> singleSpaced a = true.
Proof.
  induction a as [|u a IH]; [reflexivity|].
  cbn [app singleSpaced]. intros H. apply andb_prop in H as [Hu Hrest].
  rewrite (IH Hrest), andb_true_r.
  destruct (isWhiteSpace u); [|reflexivity].
  apply andb_prop in Hu as [Heq Hnext]. rewrite Heq. simpl.
  destruct a; [reflexivity | exact Hnext].
Qed.

Lemma singleSpaced_dropWhile (f : N -> bool) (s : Text) :
  singleSpaced s = true -> singleSpaced (dropWhile f s) = true.
Proof.
  induction s as [|u rest IH]; [reflexivity|]. intros H. cbn [dropWhile].
  destruct (f u); [|exact H].
  apply IH. cbn [singleSpaced] in H. now apply andb_prop in H as [_ H].
Qed.

Lemma trimEnd_prefix (s : Text) : exists t, s = (trimEnd s ++ t)%list.
Proof.
  induction s as [|u rest [t IH]]; [now exists []|].
  cbn [trimEnd]. destruct (trimEnd rest) as [|v kept].
  - destruct (isWhiteSpace u); [now exists (u :: rest)|].
    exists rest. reflexivity.
  - exists t. cbn [app]. f_equal. exact IH.
Qed.

Lemma startsClean_trimEnd (s : Text) :
  startsClean s = true -> startsClean (trimEnd s) = true.
Proof.
  destruct s as [|u rest]; [reflexivity|]. cbn [trimEnd startsClean].
  intros H. destruct (trimEnd rest).
  - destruct (isWhiteSpace u) eqn:Hu; [reflexivity|].
    cbn [startsClean]. now rewrite Hu.
  - exact H.
Qed.

Lemma startsClean_dropWhile (s : Text) :
  startsClean (dropWhile isWhiteSpace s) = true.
Proof.
  induction s as [|u rest IH]; [reflexivity|]. cbn [dropWhile].
  destruct (isWhiteSpace u) eqn:Hu; [exact IH|].
  cbn [startsClean]. now rewrite Hu.
Qed.

Lemma startsClean_firstn (n : nat) (s : Text) :
  startsClean s = true -> startsClean (firstn n s) = true.
Proof. destruct n, s; auto. Qed.

Lemma forallb_prefix (f : N -> bool) (a t : Text) :
  forallb f (a ++ t) = true -> forallb f a = true.
Proof. rewrite forallb_app. intros H. now apply andb_prop in H as [H _]. Qed.

Lemma forallb_dropWhile (f g : N -> bool) (s : Text) :
  forallb f s = true -> forallb f (dropWhile g s) = true.
Proof.
  induction s as [|u rest IH]; [reflexivity|]. intros H. cbn [dropWhile].
  destruct (g u); [|exact H].
  apply IH. cbn [forallb] in H. now apply andb_prop in H as [_ H].
Qed.

Lemma forallb_collapseFrom (f : N -> bool) (inRun : bool) (s : Text) :
  f 32%N = true -> forallb f s = true ->
  forallb f (collapseFrom inRun s) = true.
Proof.
  intros Hspace. revert inRun.
  induction s as [|u rest IH]; intros inRun H; [reflexivity|].
  cbn [forallb] in H. apply andb_prop in H as [Hu Hrest].
  cbn [collapseFrom]. destruct (isWhiteSpace u).
  - destruct inRun; [now apply IH|]. cbn [forallb]. rewrite Hspace.
    now apply IH.
  - cbn [forallb]. rewrite Hu. now apply IH.
Qed.

Lemma forallb_filter_self (f : N -> bool) (s : Text) :
  forallb f (filter f s) = true.
Proof.
  induction s as [|u rest IH]; [reflexivity|]. cbn [filter].
  destruct (f u) eqn:Hu; [|exact IH]. cbn [forallb]. now rewrite Hu.
Qed.

(** The text that the chain of replacements, [trim] and [substring] gives. *)
Lemma cleaned_shape (s : Text) :
  let r := substring0 100 (trim (normalizeWhitespace (removeInjectionChars s))) in
  List.length r <= 100
  /\ forallb (fun u => negb (isInjectionChar u)) r = true
  /\ singleSpaced r = true
  /\ startsClean r = true.
Proof.
  cbv zeta. unfold substring0, trim, normalizeWhitespace, removeInjectionChars.
  set (kept := filter _ s). set (spaced := collapseFrom false kept).
  set (front := dropWhile isWhiteSpace spaced).
  destruct (trimEnd_prefix front) as [t Ht].
  split; [apply firstn_le_length|]. split; [|split].
  - apply (forallb_prefix _ _ (skipn 100 (trimEnd front))).
    rewrite firstn_skipn. apply (forallb_prefix _ _ t). rewrite <- Ht.
    apply forallb_dropWhile. apply forallb_collapseFrom; [reflexivity|].
    apply forallb_filter_self.
  - apply (singleSpaced_prefix _ (skipn 100 (trimEnd front))).
    rewrite firstn_skipn. apply (singleSpaced_prefix _ t). rewrite <- Ht.
    apply singleSpaced_dropWhile. apply (collapseFrom_shape false kept).
  - apply startsClean_firstn, startsClean_trimEnd, startsClean_dropWhile.
Qed.

(** X19. [sanitizeBusinessName] returns, for every argument, a name of at
    most 100 code units that holds none of the characters it removes, in
    which white space occurs only as single spaces, and that does not
    start with white space. *)
Theorem sanitized_name_is_clean (name : Arg) :
  let r := sanitizeBusinessName name in
  List.length r <= 100
  /\ forallb (fun u => negb (isInjectionChar u)) r = true
  /\ singleSpaced r = true
  /\ startsClean r = true.
Proof.
  destruct name as [|[|u s]]; try (cbv zeta; repeat split; vm_compute; lia).
  apply (cleaned_shape (u :: s)).
Qed.

Lemma filter_keeps_all (f : N -> bool) (s : Text) :
  forallb f s = true -> filter f s = s.
Proof.
  induction s as [|u rest IH]; [reflexivity|]. cbn [forallb filter].
  intros H. apply andb_prop in H as [Hu Hrest]. rewrite Hu. f_equal.
  now apply IH.
Qed.

Lemma collapseFrom_fixed (inRun : bool) (s : Text) :
  singleSpaced s = true -> (inRun = true -> startsClean s = true) ->
  collapseFrom inRun s = s.
Proof.
  revert inRun. induction s as [|u rest IH]; intros inRun Hs Hc; [reflexivity|].
  cbn [singleSpaced] in Hs. apply andb_prop in Hs as [Hu Hrest].
  cbn [collapseFrom]. destruct (isWhiteSpace u) eqn:Hws.
  - destruct inRun.
    + specialize (Hc eq_refl). cbn [startsClean] in Hc. rewrite Hws in Hc.
      discriminate.
    + apply andb_prop in Hu as [Heq Hnext]. apply N.eqb_eq in Heq. subst u.
      f_equal. apply IH; [exact Hrest|]. intros _.
      destruct rest; [reflexivity | exact Hnext].
  - f_equal. apply IH; [exact Hrest | discriminate].
Qed.

Lemma dropWhile_fixed (s : Text) :
  startsClean s = true -> dropWhile isWhiteSpace s = s.
Proof.
  destruct s as [|u rest]; [reflexivity|]. cbn [startsClean dropWhile].
  now destruct (isWhiteSpace u).
Qed.

Lemma trimEnd_fixed (s : Text) : endsClean s = true -> trimEnd s = s.
Proof.
  induction s as [|u rest IH]; [reflexivity|].
  destruct rest as [|v rest'].
  - cbn. now destruct (isWhiteSpace u).
  - intros H. change (endsClean (u :: v :: rest')) with (endsClean (v :: rest')) in H.
    cbn [trimEnd]. cbn [trimEnd] in IH. rewrite (IH H). reflexivity.
Qed.

Lemma dropWhile_all (f : N -> bool) (s : Text) :
  forallb f s = true -> dropWhile f s = [].
Proof.
  induction s as [|u rest IH]; [reflexivity|]. cbn [forallb dropWhile].
  intros H. apply andb_prop in H as [Hu Hrest]. rewrite Hu. now apply IH.
Qed.

Lemma filter_leaves_whitespace (s : Text) :
  forallb (fun u => isInjectionChar u || isWhiteSpace u) s = true ->
  forallb isWhiteSpace (removeInjectionChars s) = true.
Proof.
  unfold removeInjectionChars.
  induction s as [|u rest IH]; [reflexivity|]. cbn [forallb filter].
  intros H. apply andb_prop in H as [Hu Hrest].
  destruct (isInjectionChar u); cbn [negb]; [now apply IH|].
  cbn [forallb]. simpl in Hu. rewrite Hu. now apply IH.
Qed.

(** X20. A name that is already clean is returned as it is: not empty, at
    most 100 code units, none of the removed characters, white space only
    as single spaces and none at either end. A non-empty name of which
    nothing survives (only removed characters and white space) is
    returned as the empty string, not as the default name. *)
Theorem sanitize_fixed_points_and_empty_names (s : Text) :
  s <> [] ->
  (List.length s <= 100 ->
   forallb (fun u => negb (isInjectionChar u)) s = true ->
   singleSpaced s = true -> startsClean s = true -> endsClean s = true ->
   sanitizeBusinessName (Chars s) = s)
  /\ (forallb (fun u => isInjectionChar u || isWhiteSpace u) s = true ->
      sanitizeBusinessName (Chars s) = []).
Proof.
  intros Hne. destruct s as [|u rest]; [congruence|]. split.
  - intros Hlen Hinj Hsp Hstart Hend.
    unfold sanitizeBusinessName, substring0, trim, normalizeWhitespace,
      removeInjectionChars.
    rewrite (filter_keeps_all _ _ Hinj).
    rewrite (collapseFrom_fixed false _ Hsp) by discriminate.
    rewrite (dropWhile_fixed _ Hstart), (trimEnd_fixed _ Hend).
    now apply firstn_all2.
  - intros Hall.
    unfold sanitizeBusinessName, substring0, trim, normalizeWhitespace.
    rewrite dropWhile_all; [reflexivity|].
    apply forallb_collapseFrom; [reflexivity|].
    now apply filter_leaves_whitespace.
Qed.

Lemma sanitize_fixed_points_and_empty_names_witness :
  units "Joe Bar" <> []
  /\ sanitizeBusinessName (Chars (units "Joe Bar")) = units "Joe Bar".
Proof.
  split; [discriminate|].
  apply (proj1 (sanitize_fixed_points_and_empty_names (units "Joe Bar")
                  ltac:(discriminate)));
    try reflexivity.
  vm_compute. lia.
Defined.

(** ** validateColorScheme *)

Lemma textEqb_eq (a b : Text) : textEqb a b = true -> a = b.
Proof.
  revert b. induction a as [|x a IH]; intros [|y b]; cbn; try discriminate;
    [reflexivity|].
  intros H. apply andb_prop in H as [Hxy Hab]. apply N.eqb_eq in Hxy.
  subst y. f_equal. now apply IH.
Qed.

Lemma named_scheme_is_accepted (n : Text) :
  In n namedSchemes -> validateColorScheme (Some n) = Some n.
Proof.
  cbn. intros H.
  repeat (destruct H as [<-|H]; [vm_compute; reflexivity|]).
  contradiction.
Qed.

(** X21. [validateColorScheme] is idempotent: what it returns (null, the hex
    or rgb text unchanged, or a named scheme in lower case) is returned
    unchanged when validated again, and an accepted scheme is never the
    empty string. *)
Theorem validateColorScheme_idempotent (colorScheme : option Text) :
  validateColorScheme (validateColorScheme colorScheme)
  = validateColorScheme colorScheme
  /\ validateColorScheme colorScheme <> Some [].
Proof.
  destruct colorScheme as [[|u s]|]; try (split; [reflexivity | discriminate]).
  cbn [validateColorScheme].
  destruct (hexPattern (u :: s) || rgbPattern (u :: s)) eqn:Hpat.
  - split; [|discriminate]. cbn [validateColorScheme]. now rewrite Hpat.
  - destruct (existsb (textEqb (toLowerCase (u :: s))) namedSchemes) eqn:Hn;
      [|split; [reflexivity | discriminate]].
    apply existsb_exists in Hn as [n [Hin Heq]].
    apply textEqb_eq in Heq. rewrite Heq.
    split; [now apply named_scheme_is_accepted|].
    rewrite <- Heq. discriminate.
Qed.

(** ** extractSafeAnalysisData *)

Lemma sanitized_length (name : Arg) :
  List.length (sanitizeBusinessName name) <= 100.
Proof.
  destruct name as [|[|u s]]; try (vm_compute; lia).
  apply (cleaned_shape (u :: s)).
Qed.

Lemma orText_nonempty (dflt : Text) (v : option Text) :
  dflt <> [] -> orText dflt v <> [].
Proof. destruct v as [[|u s]|]; cbn; congruence. Qed.

(** X22. Whatever the analysis result holds, the extracted data is bounded:
    the business name and the original title have at most 100 code units,
    the description at most 500, there are at most 10 services and at most
    5 recommendations; business type and industry are never empty. The
    services and the recommendations kept are the first ones given, and an
    analysis without business information gives the default name,
    "other" as type and industry, and the default confidence. *)
Theorem extracted_data_is_bounded (Number : Type)
  (numberTruthy : Number -> bool) (half : Number) (Recommendation : Type)
  (analysis : RawAnalysis Number Recommendation) :
  let data := extractSafeAnalysisData Number numberTruthy half Recommendation
                analysis in
  List.length (businessName _ _ data) <= 100
  /\ List.length (originalTitle _ _ data) <= 100
  /\ List.length (description _ _ data) <= 500
  /\ List.length (services _ _ data) <= 10
  /\ List.length (topRecommendations _ _ data) <= 5
  /\ businessType _ _ data <> []
  /\ industry _ _ data <> []
  /\ (forall bi l, raw_business_info _ _ analysis = Some bi ->
        raw_services _ bi = Some l ->
        exists t, l = services _ _ data ++ t)
  /\ (forall l, raw_recommendations _ _ analysis = Some l ->
        exists t, l = topRecommendations _ _ data ++ t)
  /\ (raw_business_info _ _ analysis = None ->
      businessName _ _ data = units "Business"
      /\ businessType _ _ data = units "other"
      /\ industry _ _ data = units "other"
      /\ services _ _ data = []
      /\ confidence _ _ data = half).
Proof.
  cbv zeta. unfold extractSafeAnalysisData. cbn [businessName originalTitle
    description services topRecommendations businessType industry confidence].
  split; [apply sanitized_length|].
  split; [apply firstn_le_length|]. split; [apply firstn_le_length|].
  split; [apply firstn_le_length|]. split; [apply firstn_le_length|].
  split; [apply orText_nonempty; discriminate|].
  split; [apply orText_nonempty; discriminate|].
  split; [|split].
  - intros bi l -> ->. exists (skipn 10 l). symmetry. apply firstn_skipn.
  - intros l ->. exists (skipn 5 l). symmetry. apply firstn_skipn.
  - intros ->. repeat split.
Qed.

End SanitizerProps.
